(** * Device flag resolution (tools/device_flags.py)

    A shallow embedding of the [DeviceFlags] class of
    [src/tools/device_flags.py] and the properties of its flag
    resolution: precedence between the aconfig snapshot and the live
    [device_config] store, the lazy snapshot load, and boolean coercion.

    Conventions.
    - A Python [str] is a list of Unicode code points ([list N]); a
      Python [bytes] object is a [list byte].
    - The device ([self._ad]), the protobuf text parser and the temporary
      directory factory are external collaborators.  They are modelled as
      oracles that may answer differently at every call: each one
      receives the trace of all effects performed so far.
    - Methods are computations in a state-and-exception monad over the
      [World]: the [DeviceFlags] object, the trace of external calls, the
      host files written by [adb pull] and the live temporary
      directories. *)

From Stdlib Require Import Strings.String Strings.Ascii Strings.Byte NArith List Lia.
From stdpp Require Import gmap list.

Local Open Scope N_scope.

(** ** Text: [str], [bytes] and the string methods the module uses *)

Abbreviation str := (list N).
Abbreviation bytes := (list byte).

(** An ASCII literal as a [str]. *)
Definition lit (s : string) : str :=
  map N_of_ascii (list_ascii_of_string s).

(** An ASCII literal as [bytes] (Python [b'...']). *)
Definition blit (s : string) : bytes := list_byte_of_string s.

Definition in_range (lo hi x : N) : bool := (lo <=? x) && (x <=? hi).

(** Continuation byte payload. *)
Definition cont (b : N) : N := b - 0x80.

(** [bytes.decode('utf8')] with the default strict error handler, on the
    numeric values of the bytes: [None] stands for [UnicodeDecodeError].
    Overlong forms, surrogates and values above U+10FFFF are rejected. *)
Fixpoint utf8_decode (bs : list N) : option str :=
  match bs with
  | [] => Some []
  | b0 :: r0 =>
    if b0 <? 0x80 then cons b0 <$> utf8_decode r0
    else if in_range 0xC2 0xDF b0 then
      match r0 with
      | b1 :: r1 =>
        if in_range 0x80 0xBF b1
        then cons ((b0 - 0xC0) * 64 + cont b1) <$> utf8_decode r1
        else None
      | _ => None
      end
    else if in_range 0xE0 0xEF b0 then
      match r0 with
      | b1 :: b2 :: r2 =>
        let lo := if b0 =? 0xE0 then 0xA0 else 0x80 in
        let hi := if b0 =? 0xED then 0x9F else 0xBF in
        if in_range lo hi b1 && in_range 0x80 0xBF b2
        then cons ((b0 - 0xE0) * 4096 + cont b1 * 64 + cont b2)
               <$> utf8_decode r2
        else None
      | _ => None
      end
    else if in_range 0xF0 0xF4 b0 then
      match r0 with
      | b1 :: b2 :: b3 :: r3 =>
        let lo := if b0 =? 0xF0 then 0x90 else 0x80 in
        let hi := if b0 =? 0xF4 then 0x8F else 0xBF in
        if in_range lo hi b1 && in_range 0x80 0xBF b2 && in_range 0x80 0xBF b3
        then cons ((b0 - 0xF0) * 262144 + cont b1 * 4096
                   + cont b2 * 64 + cont b3)
               <$> utf8_decode r3
        else None
      | _ => None
      end
    else None
  end.

Definition decode_utf8 (b : bytes) : option str :=
  utf8_decode (map Byte.to_N b).

(** The code points [str.strip()] removes: CPython's [Py_UNICODE_ISSPACE]. *)
Definition is_space (c : N) : bool :=
  in_range 0x09 0x0D c || in_range 0x1C 0x20 c
  || (c =? 0x85) || (c =? 0xA0) || (c =? 0x1680)
  || in_range 0x2000 0x200A c || (c =? 0x2028) || (c =? 0x2029)
  || (c =? 0x202F) || (c =? 0x205F) || (c =? 0x3000).

Fixpoint lstrip (s : str) : str :=
  match s with
  | c :: s' => if is_space c then lstrip s' else s
  | [] => []
  end.

Definition rstrip (s : str) : str := rev (lstrip (rev s)).

(** [str.strip()] without arguments. *)
Definition strip (s : str) : str := rstrip (lstrip s).

(** [str.lower()] on the ASCII letters; other code points are kept.  The
    module only compares the result with the ASCII words [true] and
    [false], and no code point outside A-Z lower-cases to one of their
    letters, so both comparisons are decided as in Python. *)
Definition lower_char (c : N) : N :=
  if in_range 0x41 0x5A c then c + 32 else c.

Definition lower (s : str) : str := map lower_char s.

Definition startswith (p s : str) : bool :=
  bool_decide (take (length p) s = p).

Definition endswith (p s : str) : bool :=
  bool_decide (drop (length s - length p)%nat s = p).

(** [os.path.join] of [posixpath]. *)
Definition os_path_join (a : str) (ps : list str) : str :=
  fold_left
    (fun path b =>
       if startswith (lit "/") b then b
       else if bool_decide (path = []) || endswith (lit "/") path
            then path ++ b
            else path ++ lit "/" ++ b)
    ps a.

(** ** The aconfig protobuf messages *)

(** Modelled from the spec: the generated module [protos/aconfig_pb2] is
    not part of the sources; the enums [flag_state], [flag_permission]
    and the message [parsed_flag] follow the data model of the
    specification (FlagState, FlagPermission, ParsedFlagRecord). *)
Inductive flag_state := ENABLED | DISABLED.

Inductive flag_permission := READ_ONLY | READ_WRITE.

Record parsed_flag := mk_parsed_flag {
  flag_namespace : str;
  flag_package : str;
  flag_name : str;
  state : flag_state;
  permission : flag_permission
}.

#[global] Instance flag_state_eq_dec : EqDecision flag_state.
Proof. solve_decision. Defined.

#[global] Instance flag_permission_eq_dec : EqDecision flag_permission.
Proof. solve_decision. Defined.

#[global] Instance parsed_flag_eq_dec : EqDecision parsed_flag.
Proof. solve_decision. Defined.

(** ** Module constants *)

Definition _ACONFIG_PARTITIONS : list str :=
  [lit "product"; lit "system"; lit "system_ext"; lit "vendor"].

Definition _ACONFIG_TEXTPROTO_FILE : str := lit "aconfig_flags.textproto".

Definition _DEVICE_CONFIG_GET_CMD : str := lit "device_config get".

Definition _READ_ONLY : flag_permission := READ_ONLY.

Definition _ENABLED : flag_state := ENABLED.

(** ** Exceptions, effects and the world *)

(** The exceptions that can leave the module.  [AdbError] and [OSError]
    are transport and host failures, [ParseError] is
    [text_format.ParseError]; [ValueError] is the coercion error of
    [get_bool] (InvalidFlagType in the specification). *)
Inductive Exn :=
| AdbError
| OSError
| ParseError
| UnicodeDecodeError
| TypeError (msg : str)
| AttributeError (msg : str)
| ValueError (msg : str).

#[global] Instance Exn_eq_dec : EqDecision Exn.
Proof. solve_decision. Defined.

Inductive result (A : Type) :=
| Ok (a : A)
| Raise (e : Exn).

Arguments Ok {A} a.
Arguments Raise {A} e.

(** The calls to the outside, in the order they were made. *)
Inductive Event :=
| EvMkdtemp (dir : str)
| EvCleanup (dir : str)
| EvPull (device_path host_path : str)
| EvShell (cmd : str).

#[global] Instance Event_eq_dec : EqDecision Event.
Proof. solve_decision. Defined.

(** [android_device.AndroidDevice], reduced to the two [adb] calls the
    module makes.  [adb_pull h device_path host_path] is the content of
    the file that the pull leaves at [host_path], or the exception it
    raises; [adb_shell h cmd] is the raw output of the command. *)
Record AndroidDevice := {
  adb_pull : list Event -> str -> str -> result str;
  adb_shell : list Event -> str -> result bytes
}.

(** The host side: [text_format.Parse] into a [parsed_flags] message
    (its repeated field [parsed_flag]), and the name chosen by
    [tempfile.TemporaryDirectory()]. *)
Record Host := {
  text_format_Parse : str -> result (list parsed_flag);
  mkdtemp : list Event -> result str
}.

Record DeviceFlags := mk_DeviceFlags {
  _ad : AndroidDevice;
  _aconfig_flags : option (gmap str parsed_flag)
}.

Record World := mk_World {
  self : DeviceFlags;
  trace : list Event;
  files : gmap str str;
  tmp_dirs : list str
}.

(** [DeviceFlags.__init__]. *)
Definition __init__ (ad : AndroidDevice) : DeviceFlags :=
  {| _ad := ad; _aconfig_flags := None |}.

(** A fresh session: the object just built, nothing done yet. *)
Definition new_session (ad : AndroidDevice) : World :=
  {| self := __init__ ad; trace := []; files := ∅; tmp_dirs := [] |}.

(** ** The monad *)

Definition M (A : Type) : Type := World -> result A * World.

#[global] Instance M_ret : MRet M := fun A a w => (Ok a, w).

#[global] Instance M_bind : MBind M := fun A B k c w =>
  match c w with
  | (Ok a, w') => k a w'
  | (Raise e, w') => (Raise e, w')
  end.

Definition raise {A} (e : Exn) : M A := fun w => (Raise e, w).

(** [for x in xs: body(x)]. *)
Fixpoint for_ {A} (xs : list A) (body : A -> M unit) : M unit :=
  match xs with
  | [] => mret tt
  | x :: xs' => body x;; for_ xs' body
  end.

Definition lift_result {A} (r : result A) : M A :=
  fun w => (r, w).

(** ** Primitive effects *)

Definition set_trace (t : list Event) (w : World) : World :=
  {| self := self w; trace := t; files := files w; tmp_dirs := tmp_dirs w |}.

Definition set_files (f : gmap str str) (w : World) : World :=
  {| self := self w; trace := trace w; files := f; tmp_dirs := tmp_dirs w |}.

Definition set_tmp_dirs (d : list str) (w : World) : World :=
  {| self := self w; trace := trace w; files := files w; tmp_dirs := d |}.

Definition set_self (o : DeviceFlags) (w : World) : World :=
  {| self := o; trace := trace w; files := files w; tmp_dirs := tmp_dirs w |}.

Definition log (e : Event) (w : World) : World :=
  set_trace (trace w ++ [e]) w.

(** Read [self._aconfig_flags]. *)
Definition read_aconfig_flags : M (option (gmap str parsed_flag)) :=
  fun w => (Ok (_aconfig_flags (self w)), w).

(** [self._aconfig_flags = v]. *)
Definition assign_aconfig_flags (v : option (gmap str parsed_flag)) : M unit :=
  fun w => (Ok tt, set_self {| _ad := _ad (self w); _aconfig_flags := v |} w).

(** [self._aconfig_flags[key] = flag]; subscript assignment on [None]
    is a [TypeError]. *)
Definition setitem_aconfig_flags (key : str) (flag : parsed_flag) : M unit :=
  fun w =>
    match _aconfig_flags (self w) with
    | Some d =>
      (Ok tt, set_self {| _ad := _ad (self w);
                          _aconfig_flags := Some (<[key := flag]> d) |} w)
    | None =>
      (Raise (TypeError
                (lit "'NoneType' object does not support item assignment")), w)
    end.

(** [self._ad.adb.pull([device_path, host_path])]: the call is recorded,
    and on success the pulled file exists on the host. *)
Definition adb_pull_call (device_path host_path : str) : M unit :=
  fun w =>
    let w' := log (EvPull device_path host_path) w in
    match adb_pull (_ad (self w)) (trace w) device_path host_path with
    | Ok content => (Ok tt, set_files (<[host_path := content]> (files w')) w')
    | Raise e => (Raise e, w')
    end.

(** [self._ad.adb.shell(cmd)]. *)
Definition adb_shell_call (cmd : str) : M bytes :=
  fun w => (adb_shell (_ad (self w)) (trace w) cmd, log (EvShell cmd) w).

(** [with open(path) as f: f.read()]. *)
Definition open_read (path : str) : M str :=
  fun w =>
    match files w !! path with
    | Some content => (Ok content, w)
    | None => (Raise OSError, w)
    end.

(** [b.decode('utf8')]. *)
Definition decode (b : bytes) : M str :=
  match decode_utf8 b with
  | Some s => mret s
  | None => raise UnicodeDecodeError
  end.

(** A path is inside directory [d] when it extends [os.path.join(d, '')]. *)
Definition inside (d p : str) : bool :=
  startswith (os_path_join d [[]]) p.

Fixpoint remove_first (d : str) (l : list str) : list str :=
  match l with
  | [] => []
  | x :: l' => if bool_decide (x = d) then l' else x :: remove_first d l'
  end.

(** [TemporaryDirectory.cleanup]: the directory and all it holds go. *)
Definition cleanup (d : str) (w : World) : World :=
  set_tmp_dirs (remove_first d (tmp_dirs w))
    (set_files (filter (fun kv => inside d kv.1 = false) (files w))
       (log (EvCleanup d) w)).

(** The local variables of the partition loop:
    [os.path.join('/', partition, 'etc', _ACONFIG_TEXTPROTO_FILE)],
    [os.path.join(tmp_dir, '%s_%s' % (partition, _ACONFIG_TEXTPROTO_FILE))]
    and ['%s/%s.%s' % (flag.namespace, flag.package, flag.name)]. *)
Definition device_path (partition : str) : str :=
  os_path_join (lit "/") [partition; lit "etc"; _ACONFIG_TEXTPROTO_FILE].

Definition host_path (tmp_dir partition : str) : str :=
  os_path_join tmp_dir [partition ++ lit "_" ++ _ACONFIG_TEXTPROTO_FILE].

Definition full_name (flag : parsed_flag) : str :=
  flag_namespace flag ++ lit "/" ++ flag_package flag
    ++ lit "." ++ flag_name flag.

Section Methods.

Variable host : Host.

(** [with tempfile.TemporaryDirectory() as tmp_dir: body]: the exit
    handler runs however the body ends. *)
Definition with_TemporaryDirectory {A} (body : str -> M A) : M A :=
  fun w =>
    match mkdtemp host (trace w) with
    | Raise e => (Raise e, w)
    | Ok d =>
      let w1 := set_tmp_dirs (d :: tmp_dirs w) (log (EvMkdtemp d) w) in
      let (r, w2) := body d w1 in
      (r, cleanup d w2)
    end.

(** The body of the partition loop of [_load_aconfig_flags]. *)
Definition load_partition (tmp_dir partition : str) : M unit :=
  adb_pull_call (device_path partition) (host_path tmp_dir partition);;
  content ← open_read (host_path tmp_dir partition);
  parsed_flags ← lift_result (text_format_Parse host content);
  for_ parsed_flags (fun flag =>
    setitem_aconfig_flags (full_name flag) flag).

Definition _load_aconfig_flags : M unit :=
  assign_aconfig_flags (Some ∅);;
  with_TemporaryDirectory (fun tmp_dir =>
    for_ _ACONFIG_PARTITIONS (load_partition tmp_dir)).

Definition _get_aconfig_flags : M (gmap str parsed_flag) :=
  cached ← read_aconfig_flags;
  (if bool_decide (cached = None) then _load_aconfig_flags else mret tt);;
  loaded ← read_aconfig_flags;
  match loaded with
  | Some d => mret d
  | None =>
    raise (AttributeError (lit "'NoneType' object has no attribute 'get'"))
  end.

Definition get_value (namespace name : str) : M (option str) :=
  flags ← _get_aconfig_flags;
  let aconfig_flag := flags !! (namespace ++ lit "/" ++ name) in
  let aconfig_val :=
    match aconfig_flag with
    | Some f =>
      Some (if bool_decide (state f = _ENABLED)
            then lit "true" else lit "false")
    | None => None
    end in
  if match aconfig_flag with
     | Some f => bool_decide (permission f = _READ_ONLY)
     | None => false
     end
  then mret aconfig_val
  else
    raw ← adb_shell_call
            (_DEVICE_CONFIG_GET_CMD ++ lit " " ++ namespace ++ lit " " ++ name);
    text ← decode raw;
    let device_config_val := strip text in
    mret (if bool_decide (device_config_val ≠ lit "null")
          then Some device_config_val else aconfig_val).

Definition get_bool (namespace name : str) : M bool :=
  val ← get_value namespace name;
  match val with
  | None =>
    raise (AttributeError (lit "'NoneType' object has no attribute 'lower'"))
  | Some v =>
    if bool_decide (lower v = lit "true") then mret true
    else if bool_decide (lower v = lit "false") then mret false
    else raise (ValueError
                  (lit "Flag " ++ namespace ++ lit "/" ++ name
                     ++ lit " is not a boolean (value: " ++ v ++ lit ")."))
  end.

End Methods.

(** ** Sessions and call sequences *)

(** A use of the public interface by a caller, who may catch what a call
    raises and go on with the same object. *)
Inductive Call :=
| CallGetValue (namespace name : str)
| CallGetBool (namespace name : str).

Definition run_call (host : Host) (c : Call) (w : World) : World :=
  match c with
  | CallGetValue namespace name => (get_value host namespace name w).2
  | CallGetBool namespace name => (get_bool host namespace name w).2
  end.

Definition run_calls (host : Host) (cs : list Call) (w : World) : World :=
  fold_left (fun w c => run_call host c w) cs w.

(** A session whose index is already in place, as the unit tests set it
    up ([self.device_flags._aconfig_flags = {...}]). *)
Definition preset_session (ad : AndroidDevice)
    (index : gmap str parsed_flag) : World :=
  {| self := {| _ad := ad; _aconfig_flags := Some index |};
     trace := []; files := ∅; tmp_dirs := [] |}.

(** ** Observations on traces *)

Definition is_shell (e : Event) : bool :=
  match e with EvShell _ => true | _ => false end.

Definition is_mkdtemp (e : Event) : bool :=
  match e with EvMkdtemp _ => true | _ => false end.

(** The [device_config] queries made so far. *)
Definition shell_calls (t : list Event) : list Event := List.filter is_shell t.

(** Everything the snapshot fetch does: directories and pulls. *)
Definition fetch_events (t : list Event) : list Event :=
  List.filter (fun e => negb (is_shell e)) t.

(** The device paths pulled so far, in order. *)
Definition pulled (t : list Event) : list str :=
  omap (fun e => match e with EvPull dp _ => Some dp | _ => None end) t.

(** How many temporary directories were created, one per load. *)
Definition loads_started (t : list Event) : nat :=
  length (List.filter is_mkdtemp t).

(** ** Vocabulary of the properties *)

(** The snapshot-derived value of a flag. *)
Definition snapshot_value (s : flag_state) : str :=
  match s with
  | ENABLED => lit "true"
  | DISABLED => lit "false"
  end.

(** The query [get_value] sends to the device. *)
Definition device_config_get (namespace name : str) : str :=
  _DEVICE_CONFIG_GET_CMD ++ lit " " ++ namespace ++ lit " " ++ name.

(** The key [get_value] looks up. *)
Definition flag_key (namespace name : str) : str :=
  namespace ++ lit "/" ++ name.

(** [c] is the lower-case letter [d] or its capital. *)
Definition same_letter (c d : N) : Prop := c = d \/ c + 32 = d.

(** [v] spells the lower-case word [word], whatever the case of its
    letters. *)
Definition equals_ignoring_case (v word : str) : Prop :=
  Forall2 same_letter v word.

Definition is_lower_letter (d : N) : Prop := 97 <= d <= 122.

(** The message of the coercion error of [get_bool]. *)
Definition not_a_boolean (namespace name v : str) : str :=
  lit "Flag " ++ namespace ++ lit "/" ++ name
    ++ lit " is not a boolean (value: " ++ v ++ lit ").".

(** The index after the records [flags] are stored, in order, over [d]. *)
Definition store_flags (flags : list parsed_flag)
    (d : gmap str parsed_flag) : gmap str parsed_flag :=
  fold_left (fun d flag => <[full_name flag := flag]> d) flags d.

(** The last record of a document that has key [k], if any. *)
Fixpoint last_with_key (k : str) (flags : list parsed_flag)
    : option parsed_flag :=
  match flags with
  | [] => None
  | flag :: rest =>
    match last_with_key k rest with
    | Some r => Some r
    | None => if bool_decide (full_name flag = k) then Some flag else None
    end
  end.

(** The device and the parser answer [flags] for [partition], whenever
    asked. *)
Definition serves (ad : AndroidDevice) (host : Host)
    (partition : str) (flags : list parsed_flag) : Prop :=
  forall h hp, exists content,
    adb_pull ad h (device_path partition) hp = Ok content
    /\ text_format_Parse host content = Ok flags.

(** The pull of [partition], or the parse of what was pulled, raises [e],
    whenever asked. *)
Definition fails (ad : AndroidDevice) (host : Host)
    (partition : str) (e : Exn) : Prop :=
  forall h hp,
    adb_pull ad h (device_path partition) hp = Raise e
    \/ exists content,
         adb_pull ad h (device_path partition) hp = Ok content
         /\ text_format_Parse host content = Raise e.

(** The world in which the partition loop of a load starts: the index
    reset and directory [d] created. *)
Definition load_entered (d : str) (w : World) : World :=
  set_tmp_dirs (d :: tmp_dirs w)
    (log (EvMkdtemp d)
       (set_self {| _ad := _ad (self w); _aconfig_flags := Some ∅ |} w)).

(** ** Scenarios *)

Fixpoint table_lookup {A} (t : list (str * A)) (k : str) : option A :=
  match t with
  | [] => None
  | (k', a) :: t' => if bool_decide (k' = k) then Some a else table_lookup t' k
  end.

(** A device known by the documents it holds (any other pull is an
    [AdbError]) and by its answer to every shell command. *)
Definition table_device (docs : list (str * result str))
    (live : result bytes) : AndroidDevice :=
  {| adb_pull := fun _ dp _ => default (Raise AdbError) (table_lookup docs dp);
     adb_shell := fun _ _ => live |}.

(** A host whose parser is known by its graph on the documents of a
    scenario (anything else is a [ParseError]). *)
Definition table_host (graph : list (str * list parsed_flag)) : Host :=
  {| text_format_Parse := fun c =>
       match table_lookup graph c with
       | Some flags => Ok flags
       | None => Raise ParseError
       end;
     mkdtemp := fun _ => Ok (lit "/tmp/tmpq1w2e3") |}.

Definition sample_flag (s : flag_state) (p : flag_permission) : parsed_flag :=
  {| flag_namespace := lit "sample"; flag_package := lit "pkg";
     flag_name := lit "flag"; state := s; permission := p |}.

Definition the_host : Host :=
  table_host [(lit "none", []);
              (lit "rw-on", [sample_flag ENABLED READ_WRITE]);
              (lit "ro-on", [sample_flag ENABLED READ_ONLY]);
              (lit "ro-off", [sample_flag DISABLED READ_ONLY])].

(** Every partition holds a document; [product] and [vendor] define
    [sample/pkg.flag] differently. *)
Definition full_device (live : result bytes) : AndroidDevice :=
  table_device
    [(device_path (lit "product"), Ok (lit "rw-on"));
     (device_path (lit "system"), Ok (lit "none"));
     (device_path (lit "system_ext"), Ok (lit "none"));
     (device_path (lit "vendor"), Ok (lit "ro-off"))]
    live.

(** What the documents of [full_device] parse to. *)
Definition full_docs (partition : str) : list parsed_flag :=
  if bool_decide (partition = lit "product")
  then [sample_flag ENABLED READ_WRITE]
  else if bool_decide (partition = lit "vendor")
       then [sample_flag DISABLED READ_ONLY]
       else [].

(** [product] holds a document, the pull of [system] fails. *)
Definition broken_device (live : result bytes) : AndroidDevice :=
  table_device [(device_path (lit "product"), Ok (lit "rw-on"))] live.

(** [r] is the trimmed answer of the device to the query of
    [get_value], and that answer is not "null". *)
Definition live_answer (host : Host) (namespace name : str) (w : World)
    (r : option str) : Prop :=
  exists flags w1 raw text,
    _get_aconfig_flags host w = (Ok flags, w1)
    /\ adb_shell (_ad (self w1)) (trace w1)
         (device_config_get namespace name) = Ok raw
    /\ decode_utf8 raw = Some text
    /\ strip text ≠ lit "null"
    /\ r = Some (strip text).

(** The values [get_value] can return. *)
Definition resolved (host : Host) (namespace name : str) (w : World)
    (r : option str) : Prop :=
  r ≠ Some (lit "null")
  /\ (r = None \/ r = Some (lit "true") \/ r = Some (lit "false")
      \/ live_answer host namespace name w r).

(** The set-up of the unit tests: a device that answers [live] to every
    shell command, and an index with one hand-made entry under the key
    ["sample/flag"]. *)
Definition test_device (live : bytes) : AndroidDevice :=
  table_device [] (Ok live).

Definition test_flag (s : flag_state) (p : flag_permission) : parsed_flag :=
  {| flag_namespace := []; flag_package := []; flag_name := [];
     state := s; permission := p |}.

Definition test_index (s : flag_state) (p : flag_permission)
    : gmap str parsed_flag :=
  {[ lit "sample/flag" := test_flag s p ]}.

(** What the second half of [get_value] computes in world [w]: the
    device is asked, and [fallback] stands in for the [null] answer. *)
Definition live_or (namespace name : str) (fallback : option str)
    (w : World) : result (option str) * World :=
  let cmd := device_config_get namespace name in
  match adb_shell (_ad (self w)) (trace w) cmd with
  | Raise e => (Raise e, log (EvShell cmd) w)
  | Ok raw =>
    match decode_utf8 raw with
    | None => (Raise UnicodeDecodeError, log (EvShell cmd) w)
    | Some text =>
      (Ok (if bool_decide (strip text ≠ lit "null")
           then Some (strip text) else fallback),
       log (EvShell cmd) w)
    end
  end.

(** The event a pull of [partition] into directory [d] leaves. *)
Definition pull_event (d partition : str) : Event :=
  EvPull (device_path partition) (host_path d partition).

(** What a run of the partition loop may change: the index stays a
    dictionary, the trace grows by the pulls of the partitions [k]. *)
Definition loop_frame (d : str) (k : list str) (w w' : World) : Prop :=
  _ad (self w') = _ad (self w)
  /\ is_Some (_aconfig_flags (self w'))
  /\ tmp_dirs w' = tmp_dirs w
  /\ trace w' = trace w ++ map (pull_event d) k.

(** What a load may add to the trace: nothing when no directory could be
    created, else one directory, the pulls of a prefix of the partitions,
    and the removal of the directory. *)
Definition load_trace (host : Host) (w w' : World) : Prop :=
  trace w' = trace w
  \/ exists d k,
       mkdtemp host (trace w) = Ok d
       /\ k `prefix_of` _ACONFIG_PARTITIONS
       /\ trace w' = trace w ++ EvMkdtemp d :: map (pull_event d) k
                       ++ [EvCleanup d].

(** The fetch events of at most one load. *)
Definition one_load (t : list Event) : Prop :=
  t = []
  \/ exists d k,
       k `prefix_of` _ACONFIG_PARTITIONS
       /\ t = EvMkdtemp d :: map (pull_event d) k ++ [EvCleanup d].

(** ** Vocabulary of the further properties *)

(** Every entry of the index is filed under the full name of its
    record. *)
Definition keyed_by_full_name (index : gmap str parsed_flag) : Prop :=
  forall k f, index !! k = Some f -> full_name f = k.

(** The name under which a caller asks for an aconfig flag:
    ['{package}.{name}'] (docstring of [get_value]). *)
Definition qualified_name (flag : parsed_flag) : str :=
  flag_package flag ++ lit "." ++ flag_name flag.

(** [v] neither begins nor ends with a code point that [strip] removes. *)
Definition trimmed (v : str) : Prop :=
  (forall c, head v = Some c -> is_space c = false)
  /\ (forall c, last v = Some c -> is_space c = false).

(** The index does not decide (namespace, name) on its own: it has no
    entry for it, or a READ_WRITE one. *)
Definition overridable (flags : gmap str parsed_flag)
    (namespace name : str) : Prop :=
  forall f, flags !! flag_key namespace name = Some f ->
            permission f = READ_WRITE.

(** * The local runner (scripts/local_mobly_runner.py)

    The functions of the runner that act on their arguments alone: running
    the test binaries, installing the APKs and cleaning up.  A host with
    POSIX paths is assumed.  Standard output and the child processes are
    the effects; what a child process does is an oracle that sees the
    effects so far. *)

Module Runner.

(** [str.split(',')]: the pieces between the commas, empty ones kept. *)
Fixpoint split_comma_aux (cur : str) (s : str) : list str :=
  match s with
  | [] => [rev cur]
  | c :: s' =>
    if c =? 44 then rev cur :: split_comma_aux [] s'
    else split_comma_aux (c :: cur) s'
  end.

Definition split_comma (s : str) : list str := split_comma_aux [] s.

(** The line boundaries of [str.splitlines()]. *)
Definition is_linebreak (c : N) : bool :=
  in_range 0x0A 0x0D c || in_range 0x1C 0x1E c
  || (c =? 0x85) || (c =? 0x2028) || (c =? 0x2029).

(** [str.splitlines()]: a carriage return followed by a line feed is one
    boundary, and no empty last line is produced. *)
Fixpoint splitlines_aux (cur : str) (s : str) : list str :=
  match s with
  | [] => match cur with [] => [] | _ => [rev cur] end
  | c :: s' =>
    if c =? 0x0D then
      match s' with
      | c' :: s'' =>
        if c' =? 0x0A then rev cur :: splitlines_aux [] s''
        else rev cur :: splitlines_aux [] s'
      | [] => rev cur :: splitlines_aux [] s'
      end
    else if is_linebreak c then rev cur :: splitlines_aux [] s'
    else splitlines_aux (c :: cur) s'
  end.

Definition splitlines (s : str) : list str := splitlines_aux [] s.

(** [os.path.basename]: what follows the last slash. *)
Definition basename (p : str) : str :=
  fold_left (fun acc c => if c =? 47 then [] else acc ++ [c]) p [].

(** Truth value of an [Optional[str]] and of an [Optional[List[str]]]:
    [None] and the empty value are false. *)
Definition truthy (o : option str) : option str :=
  match o with
  | Some (c :: s) => Some (c :: s)
  | _ => None
  end.

Definition truthy_list (o : option (list str)) : option (list str) :=
  match o with
  | Some (x :: l) => Some (x :: l)
  | _ => None
  end.

(** What is printed: a line of text, or the line
    [f'Command: {cmd}\n'], kept as the list it renders. *)
Inductive Printed :=
| Line (text : str)
| CommandLine (cmd : list str).

Inductive Effect :=
| Print (p : Printed)
| Run (cmd : list str) (env : gmap str str)
| CheckCall (cmd : list str)
| CheckOutput (shell_cmd : str)
| Rmtree (path : str)
| Remove (path : str).

Inductive Error :=
| CalledProcessError (returncode : Z)
| OSError
| UnicodeDecodeError.

Inductive outcome (A : Type) :=
| Done (a : A)
| Throw (e : Error).

Arguments Done {A} a.
Arguments Throw {A} e.

(** The operating system, as the runner meets it: [os.environ]; the
    return code of a child process, or the error of starting it; the
    output of a shell command; the result of [os.remove]. *)
Record System := {
  environ : gmap str str;
  subprocess_run : list Effect -> list str -> gmap str str -> outcome Z;
  subprocess_call : list Effect -> list str -> outcome Z;
  subprocess_output : list Effect -> str -> outcome (Z * bytes);
  os_remove : list Effect -> str -> outcome unit
}.

(** The module state: standard output and processes so far, and the two
    registries [_tempdirs] and [_tempfiles]. *)
Record Process := {
  effects : list Effect;
  _tempdirs : list str;
  _tempfiles : list str
}.

Definition R (A : Type) : Type := Process -> outcome A * Process.

#[global] Instance R_ret : MRet R := fun A a p => (Done a, p).

#[global] Instance R_bind : MBind R := fun A B k c p =>
  match c p with
  | (Done a, p') => k a p'
  | (Throw e, p') => (Throw e, p')
  end.

Definition throw {A} (e : Error) : R A := fun p => (Throw e, p).

Fixpoint each {A} (xs : list A) (body : A -> R unit) : R unit :=
  match xs with
  | [] => mret tt
  | x :: xs' => body x;; each xs' body
  end.

Definition record (e : Effect) (p : Process) : Process :=
  {| effects := effects p ++ [e];
     _tempdirs := _tempdirs p; _tempfiles := _tempfiles p |}.

Definition print (text : str) : R unit :=
  fun p => (Done tt, record (Print (Line text)) p).

Definition print_command (cmd : list str) : R unit :=
  fun p => (Done tt, record (Print (CommandLine cmd)) p).

Definition nl : str := [10].

(** [print(f'\n-----{line}-----\n')]. *)
Definition _padded_print (line : str) : R unit :=
  print (nl ++ lit "-----" ++ line ++ lit "-----" ++ nl).

Section Functions.

Variable sys : System.

(** [subprocess.run(cmd, env=env)]: the return code is not looked at. *)
Definition run (cmd : list str) (env : gmap str str) : R unit :=
  fun p =>
    match subprocess_run sys (effects p) cmd env with
    | Done _ => (Done tt, record (Run cmd env) p)
    | Throw e => (Throw e, record (Run cmd env) p)
    end.

(** [subprocess.check_call(cmd)]: a return code other than 0 is a
    [CalledProcessError]. *)
Definition check_call (cmd : list str) : R unit :=
  fun p =>
    match subprocess_call sys (effects p) cmd with
    | Done rc =>
      if Z.eqb rc 0 then (Done tt, record (CheckCall cmd) p)
      else (Throw (CalledProcessError rc), record (CheckCall cmd) p)
    | Throw e => (Throw e, record (CheckCall cmd) p)
    end.

(** [subprocess.check_output(cmd, shell=True)]. *)
Definition check_output (shell_cmd : str) : R bytes :=
  fun p =>
    match subprocess_output sys (effects p) shell_cmd with
    | Done (rc, out) =>
      if Z.eqb rc 0 then (Done out, record (CheckOutput shell_cmd) p)
      else (Throw (CalledProcessError rc), record (CheckOutput shell_cmd) p)
    | Throw e => (Throw e, record (CheckOutput shell_cmd) p)
    end.

Definition decode_utf_8 (b : bytes) : R str :=
  match decode_utf8 b with
  | Some s => mret s
  | None => throw UnicodeDecodeError
  end.

(** The body of the loop of [_run_mobly_tests]; [env] is the dictionary
    the loop keeps updating, returned for the next round. *)
Definition run_mobly_test (python_executable : option str) (config : str)
    (test_bed log_path : option str) (env : gmap str str)
    (mobly_bin : str) : R (gmap str str) :=
  let bin_name := basename mobly_bin in
  let env :=
    match truthy log_path with
    | Some lp => <[lit "MOBLY_LOGPATH" := os_path_join lp [bin_name]]> env
    | None => env
    end in
  let cmd :=
    match truthy python_executable with
    | Some py => [py]
    | None => []
    end in
  let cmd := cmd ++ [mobly_bin; lit "-c"; config] in
  let cmd :=
    match truthy test_bed with
    | Some tb => cmd ++ [lit "-tb"; tb]
    | None => cmd
    end in
  _padded_print (lit "Running Mobly test " ++ bin_name ++ lit ".");;
  print_command cmd;;
  run cmd env;;
  mret env.

Fixpoint run_mobly_tests_loop (python_executable : option str) (config : str)
    (test_bed log_path : option str) (env : gmap str str)
    (mobly_bins : list str) : R unit :=
  match mobly_bins with
  | [] => mret tt
  | mobly_bin :: rest =>
    env' ← run_mobly_test python_executable config test_bed log_path
             env mobly_bin;
    run_mobly_tests_loop python_executable config test_bed log_path env' rest
  end.

Definition _run_mobly_tests (python_executable : option str)
    (mobly_bins : list str) (config : str)
    (test_bed log_path : option str) : R unit :=
  run_mobly_tests_loop python_executable config test_bed log_path
    (environ sys) mobly_bins.

Definition install_command (serial apk : str) : list str :=
  [lit "adb"; lit "-s"; serial; lit "install"; lit "-r"; lit "-g"; apk].

Definition _install_apks (apks : list str)
    (serials : option (list str)) : R unit :=
  _padded_print (lit "Installing test APKs.");;
  serials ←
    match truthy_list serials with
    | Some given => mret given
    | None =>
      out ← check_output (lit "adb devices | tail -n +2 | cut -f 1");
      text ← decode_utf_8 out;
      mret (splitlines (strip text))
    end;
  each apks (fun apk =>
    each serials (fun serial =>
      print (lit "Installing " ++ apk ++ lit " on device " ++ serial
               ++ lit ".");;
      check_call (install_command serial apk))).








End Functions.

(** [args.serials.split(',') if args.serials else None] of [main]. *)
Definition parse_serials (serials : option str) : option (list str) :=
  match truthy serials with
  | Some s => Some (split_comma s)
  | None => None
  end.

(** [','.join(pieces)]. *)
Fixpoint join_comma (pieces : list str) : str :=
  match pieces with
  | [] => []
  | [x] => x
  | x :: rest => x ++ 44 :: join_comma rest
  end.

(** The child processes started so far. *)
Definition runs (es : list Effect) : list (list str * gmap str str) :=
  omap (fun e => match e with Run cmd env => Some (cmd, env) | _ => None end)
       es.

(** The commands given to [check_call] so far. *)
Definition calls (es : list Effect) : list (list str) :=
  omap (fun e => match e with CheckCall cmd => Some cmd | _ => None end) es.

(** The shell commands whose output was asked for so far. *)
Definition outputs (es : list Effect) : list str :=
  omap (fun e => match e with CheckOutput c => Some c | _ => None end) es.


(** The command line [_run_mobly_tests] builds for a binary. *)
Definition test_command (python_executable : option str) (config : str)
    (test_bed : option str) (mobly_bin : str) : list str :=
  match truthy python_executable with Some py => [py] | None => [] end
  ++ [mobly_bin; lit "-c"; config]
  ++ match truthy test_bed with Some tb => [lit "-tb"; tb] | None => [] end.

(** The environment the [n]-th binary runs in, given the binaries before
    it: once a log path is set, only the last update counts. *)
Definition test_env (sys : System) (log_path : option str)
    (mobly_bin : str) : gmap str str :=
  match truthy log_path with
  | Some lp =>
    <[lit "MOBLY_LOGPATH" := os_path_join lp [basename mobly_bin]]>
      (environ sys)
  | None => environ sys
  end.

(** The pairs [_install_apks] goes through, in its order. *)
Definition install_plan (apks serials : list str) : list (list str) :=
  flat_map (fun apk => map (fun serial => install_command serial apk) serials)
           apks.

(** A system on which every child process ends with the given code, no
    file is missing, and [adb devices] prints [devices]. *)
Definition plain_system (rc : Z) (devices : bytes) : System :=
  {| environ := {[ lit "HOME" := lit "/root" ]};
     subprocess_run := fun _ _ _ => Done rc;
     subprocess_call := fun _ _ => Done rc;
     subprocess_output := fun _ _ => Done (0%Z, devices);
     os_remove := fun _ _ => Done tt |}.

Definition fresh : Process :=
  {| effects := []; _tempdirs := []; _tempfiles := [] |}.

End Runner.

(** What a stretch of [_install_apks] may do: it calls [adb install] for
    a prefix [k] of what was planned, asks for no output, and leaves the
    registries alone; all of the plan was carried out if it returned, and
    it returns when every install succeeds. *)
Definition installs (sys : Runner.System) (plan k : list (list str))
    (p : Runner.Process) (r : Runner.outcome unit) (p' : Runner.Process)
    : Prop :=
  k `prefix_of` plan
  /\ Runner.calls (Runner.effects p') = Runner.calls (Runner.effects p) ++ k
  /\ Runner.outputs (Runner.effects p') = Runner.outputs (Runner.effects p)
  /\ (r = Runner.Done tt -> k = plan)
  /\ ((forall h c, Runner.subprocess_call sys h c = Runner.Done 0%Z) ->
      r = Runner.Done tt).

(** * Properties *)

(** ** The monad *)

Lemma bind_unfold {A B} (c : M A) (k : A -> M B) (w : World) :
  (c ≫= k) w =
  match c w with
  | (Ok a, w') => k a w'
  | (Raise e, w') => (Raise e, w')
  end.
Proof. reflexivity. Qed.

Lemma for_app {A} (xs ys : list A) (body : A -> M unit) w :
  for_ (xs ++ ys) body w =
  match for_ xs body w with
  | (Ok _, w') => for_ ys body w'
  | (Raise e, w') => (Raise e, w')
  end.
Proof.
  revert w. induction xs as [|x xs IH]; intros w; simpl.
  - reflexivity.
  - rewrite !bind_unfold. destruct (body x w) as [[[]|e] w1]; auto.
Qed.

(** ** Text *)

Lemma snapshot_value_eq (s : flag_state) :
  (if bool_decide (s = _ENABLED) then lit "true" else lit "false")
  = snapshot_value s.
Proof. destruct s; reflexivity. Qed.

Lemma lower_char_letter (c d : N) :
  is_lower_letter d -> lower_char c = d <-> same_letter c d.
Proof.
  unfold is_lower_letter, lower_char, same_letter, in_range.
  intros Hd.
  destruct (0x41 <=? c) eqn:H1; destruct (c <=? 0x5A) eqn:H2; simpl;
    rewrite ?N.leb_le, ?N.leb_gt in *; lia.
Qed.

Lemma lower_word (v word : str) :
  Forall is_lower_letter word ->
  lower v = word <-> equals_ignoring_case v word.
Proof.
  unfold equals_ignoring_case, lower. intros Hw. revert v.
  induction Hw as [|d word Hd Hw IH]; intros v.
  - destruct v; simpl; split; intros H; try constructor;
      try discriminate; inversion H; reflexivity.
  - destruct v as [|c v]; simpl.
    + split; intros H; [discriminate | inversion H].
    + split; intros H.
      * injection H as Hc Hv. constructor.
        -- apply lower_char_letter; assumption.
        -- apply IH; assumption.
      * inversion H; subst. f_equal.
        -- apply lower_char_letter; assumption.
        -- apply IH; assumption.
Qed.

Lemma true_is_lower : Forall is_lower_letter (lit "true").
Proof. repeat constructor; unfold is_lower_letter; simpl; lia. Qed.

Lemma false_is_lower : Forall is_lower_letter (lit "false").
Proof. repeat constructor; unfold is_lower_letter; simpl; lia. Qed.

(** ** [get_value] *)

Lemma get_value_unfold host namespace name w :
  get_value host namespace name w =
  match _get_aconfig_flags host w with
  | (Raise e, w1) => (Raise e, w1)
  | (Ok flags, w1) =>
    match flags !! flag_key namespace name with
    | Some f =>
      if bool_decide (permission f = READ_ONLY)
      then (Ok (Some (snapshot_value (state f))), w1)
      else live_or namespace name (Some (snapshot_value (state f))) w1
    | None => live_or namespace name None w1
    end
  end.
Proof.
  unfold get_value. rewrite bind_unfold.
  destruct (_get_aconfig_flags host w) as [[flags|e] w1]; [|reflexivity].
  fold (flag_key namespace name).
  assert (Hlive : forall fb,
    (raw ← adb_shell_call
             (_DEVICE_CONFIG_GET_CMD ++ lit " " ++ namespace ++ lit " " ++ name);
     text ← decode raw;
     mret (if bool_decide (strip text ≠ lit "null")
           then Some (strip text) else fb)) w1
    = live_or namespace name fb w1).
  { intros fb. unfold live_or, device_config_get. rewrite bind_unfold.
    unfold adb_shell_call at 1.
    destruct (adb_shell _ _ _) as [raw|e]; [|reflexivity].
    rewrite bind_unfold. unfold decode.
    destruct (decode_utf8 raw); reflexivity. }
  destruct (flags !! flag_key namespace name) as [f|].
  - rewrite snapshot_value_eq. unfold _READ_ONLY.
    destruct (bool_decide (permission f = READ_ONLY)); [reflexivity|].
    apply Hlive.
  - apply Hlive.
Qed.

(** ** The snapshot load *)

Lemma for_setitem (flags : list parsed_flag) w d :
  _aconfig_flags (self w) = Some d ->
  for_ flags (fun flag => setitem_aconfig_flags (full_name flag) flag) w
  = (Ok tt, set_self {| _ad := _ad (self w);
                        _aconfig_flags := Some (store_flags flags d) |} w).
Proof.
  revert w d. induction flags as [|flag flags IH]; intros w d Hd.
  - destruct w as [[ad idx] t f td]; simpl in *; subst; reflexivity.
  - simpl. rewrite bind_unfold. unfold setitem_aconfig_flags at 1.
    rewrite Hd. rewrite (IH _ (<[full_name flag := flag]> d)); reflexivity.
Qed.

Lemma load_partition_unfold host d p w idx :
  _aconfig_flags (self w) = Some idx ->
  load_partition host d p w =
  let w1 := log (pull_event d p) w in
  match adb_pull (_ad (self w)) (trace w) (device_path p) (host_path d p) with
  | Raise e => (Raise e, w1)
  | Ok content =>
    let w2 := set_files (<[host_path d p := content]> (files w)) w1 in
    match text_format_Parse host content with
    | Raise e => (Raise e, w2)
    | Ok flags =>
      (Ok tt, set_self {| _ad := _ad (self w);
                          _aconfig_flags := Some (store_flags flags idx) |} w2)
    end
  end.
Proof.
  intros Hidx. unfold load_partition. rewrite bind_unfold.
  unfold adb_pull_call at 1, pull_event.
  destruct (adb_pull _ _ _ _) as [content|e]; [|reflexivity].
  rewrite bind_unfold. unfold open_read at 1. simpl files.
  rewrite lookup_insert_eq. rewrite bind_unfold. unfold lift_result at 1.
  destruct (text_format_Parse host content) as [flags|e]; [|reflexivity].
  rewrite (for_setitem flags _ idx); [reflexivity | exact Hidx].
Qed.

Lemma load_partition_frame host d p w r w' :
  is_Some (_aconfig_flags (self w)) ->
  load_partition host d p w = (r, w') ->
  loop_frame d [p] w w'.
Proof.
  intros [idx Hidx] H. rewrite (load_partition_unfold _ _ _ _ idx Hidx) in H.
  simpl in H. unfold loop_frame.
  destruct (adb_pull _ _ _ _) as [content|e].
  - destruct (text_format_Parse host content) as [flags|e];
      injection H as <- <-; simpl; rewrite ?Hidx; eauto.
  - injection H as <- <-; simpl; rewrite ?Hidx; eauto.
Qed.

Lemma for_partitions_frame host d ps w r w' :
  is_Some (_aconfig_flags (self w)) ->
  for_ ps (load_partition host d) w = (r, w') ->
  exists k, k `prefix_of` ps /\ loop_frame d k w w'.
Proof.
  revert w. induction ps as [|p ps IH]; intros w Hidx H.
  - injection H as <- <-. exists []. split; [done|].
    unfold loop_frame. simpl. rewrite app_nil_r. auto.
  - simpl in H. rewrite bind_unfold in H.
    destruct (load_partition host d p w) as [[[]|e] w1] eqn:Hp.
    + apply load_partition_frame in Hp as (Had & Hs & Htd & Htr); [|exact Hidx].
      apply IH in H as (k & Hk & Had' & Hs' & Htd' & Htr'); [|exact Hs].
      exists (p :: k). split; [by apply prefix_cons|].
      unfold loop_frame. rewrite Had', Had, Htd', Htd, Htr', Htr.
      simpl. rewrite <- app_assoc. auto.
    + injection H as <- <-.
      apply load_partition_frame in Hp; [|exact Hidx].
      exists [p]. split; [|exact Hp].
      apply prefix_cons, prefix_nil.
Qed.

Lemma load_unfold host w :
  _load_aconfig_flags host w =
  match mkdtemp host (trace w) with
  | Raise e =>
    (Raise e, set_self {| _ad := _ad (self w); _aconfig_flags := Some ∅ |} w)
  | Ok d =>
    let (r, w2) :=
      for_ _ACONFIG_PARTITIONS (load_partition host d) (load_entered d w) in
    (r, cleanup d w2)
  end.
Proof.
  unfold _load_aconfig_flags. rewrite bind_unfold.
  unfold assign_aconfig_flags at 1, with_TemporaryDirectory. simpl trace.
  destruct (mkdtemp host (trace w)); reflexivity.
Qed.

Lemma remove_first_head d l : remove_first d (d :: l) = l.
Proof. simpl. rewrite bool_decide_eq_true_2; reflexivity. Qed.

Lemma cleanup_files d w p :
  inside d p = true -> files (cleanup d w) !! p = None.
Proof.
  intros Hp. unfold cleanup. simpl.
  apply map_lookup_filter_None. right. intros x _. simpl. congruence.
Qed.

Lemma load_frame host w r w' :
  _load_aconfig_flags host w = (r, w') ->
  _ad (self w') = _ad (self w)
  /\ is_Some (_aconfig_flags (self w'))
  /\ tmp_dirs w' = tmp_dirs w
  /\ load_trace host w w'.
Proof.
  rewrite load_unfold. unfold load_trace.
  destruct (mkdtemp host (trace w)) as [d|e] eqn:Hd.
  - destruct (for_ _ (load_partition host d) (load_entered d w))
      as [r2 w2] eqn:Hloop.
    intros H. injection H as <- <-.
    apply for_partitions_frame in Hloop as (k & Hk & Had & Hs & Htd & Htr);
      [|simpl; eauto].
    unfold cleanup, set_tmp_dirs, set_files, log, set_trace; cbn [self trace tmp_dirs files].
    rewrite Had, Htd, Htr. cbn [load_entered set_tmp_dirs set_self log set_trace self trace tmp_dirs files _ad].
    rewrite remove_first_head. repeat split; auto.
    right. exists d, k. repeat split; auto.
    rewrite <- !app_assoc. reflexivity.
  - intros H. injection H as <- <-. simpl. eauto.
Qed.

Lemma get_flags_cached host w d :
  _aconfig_flags (self w) = Some d ->
  _get_aconfig_flags host w = (Ok d, w).
Proof.
  intros Hd. unfold _get_aconfig_flags. rewrite bind_unfold.
  unfold read_aconfig_flags at 1. rewrite Hd. simpl bool_decide.
  rewrite bind_unfold. simpl. rewrite bind_unfold.
  unfold read_aconfig_flags. rewrite Hd. reflexivity.
Qed.

Lemma get_flags_unloaded host w :
  _aconfig_flags (self w) = None ->
  _get_aconfig_flags host w =
  match _load_aconfig_flags host w with
  | (Raise e, w') => (Raise e, w')
  | (Ok _, w') =>
    match _aconfig_flags (self w') with
    | Some d => (Ok d, w')
    | None =>
      (Raise (AttributeError (lit "'NoneType' object has no attribute 'get'")),
       w')
    end
  end.
Proof.
  intros Hd. unfold _get_aconfig_flags. rewrite bind_unfold.
  unfold read_aconfig_flags at 1. rewrite Hd. simpl bool_decide.
  rewrite bind_unfold.
  destruct (_load_aconfig_flags host w) as [[[]|e] w']; [|reflexivity].
  rewrite bind_unfold. unfold read_aconfig_flags.
  destruct (_aconfig_flags (self w')); reflexivity.
Qed.

Lemma get_flags_frame host w r w' :
  _get_aconfig_flags host w = (r, w') ->
  _ad (self w') = _ad (self w)
  /\ is_Some (_aconfig_flags (self w'))
  /\ tmp_dirs w' = tmp_dirs w
  /\ (forall flags, r = Ok flags -> _aconfig_flags (self w') = Some flags)
  /\ (is_Some (_aconfig_flags (self w)) -> w' = w)
  /\ (trace w' = trace w
      \/ _aconfig_flags (self w) = None /\ load_trace host w w').
Proof.
  destruct (_aconfig_flags (self w)) as [d|] eqn:Hd.
  - rewrite (get_flags_cached _ _ d Hd). intros H. injection H as <- <-.
    rewrite Hd. repeat split; eauto. intros flags Hf. congruence.
  - rewrite (get_flags_unloaded _ _ Hd).
    destruct (_load_aconfig_flags host w) as [r1 w1] eqn:Hload.
    apply load_frame in Hload as (Had & [d' Hs] & Htd & Htr).
    intros H.
    assert (Hw : w' = w1).
    { destruct r1 as [[]|e]; [rewrite Hs in H|]; congruence. }
    subst w1. rewrite Hs. repeat split; eauto.
    + intros flags Hf. subst r. destruct r1 as [[]|e]; [|discriminate].
      rewrite Hs in H. congruence.
    + intros [x Hx]; discriminate.
Qed.

(** ** Traces *)

Lemma shell_calls_app t1 t2 :
  shell_calls (t1 ++ t2) = shell_calls t1 ++ shell_calls t2.
Proof. apply List.filter_app. Qed.

Lemma fetch_events_app t1 t2 :
  fetch_events (t1 ++ t2) = fetch_events t1 ++ fetch_events t2.
Proof. apply List.filter_app. Qed.

Lemma shell_calls_pulls d k : shell_calls (map (pull_event d) k) = [].
Proof. induction k; simpl; auto. Qed.

Lemma fetch_events_pulls d k :
  fetch_events (map (pull_event d) k) = map (pull_event d) k.
Proof. induction k; simpl; f_equal; auto. Qed.

Lemma pulled_pulls d k : pulled (map (pull_event d) k) = map device_path k.
Proof. induction k; simpl; f_equal; auto. Qed.

Lemma shell_calls_load host w w' :
  load_trace host w w' -> shell_calls (trace w') = shell_calls (trace w).
Proof.
  intros [->|(d & k & _ & _ & ->)]; [reflexivity|].
  rewrite shell_calls_app. simpl. rewrite shell_calls_app, shell_calls_pulls.
  simpl. apply app_nil_r.
Qed.

Lemma shell_calls_get_flags host w r w' :
  _get_aconfig_flags host w = (r, w') ->
  shell_calls (trace w') = shell_calls (trace w).
Proof.
  intros H. apply get_flags_frame in H as (_ & _ & _ & _ & _ & [->|[_ H]]).
  - reflexivity.
  - eapply shell_calls_load, H.
Qed.

(** ** The precedence rules of [get_value] *)

(** C1.  When the snapshot entry of (namespace, name) is READ_ONLY,
    [get_value] returns "true" for an ENABLED entry and "false"
    otherwise, and the call sends no [device_config] query to the device:
    the trace holds the same shell calls after the call as before. *)
Theorem get_value_read_only host namespace name w flags w1 f :
  _get_aconfig_flags host w = (Ok flags, w1) ->
  flags !! flag_key namespace name = Some f ->
  permission f = READ_ONLY ->
  get_value host namespace name w
  = (Ok (Some (if bool_decide (state f = ENABLED)
               then lit "true" else lit "false")), w1)
  /\ shell_calls (trace w1) = shell_calls (trace w).
Proof.
  intros Hflags Hf Hperm. split.
  - rewrite get_value_unfold, Hflags, Hf, Hperm.
    rewrite bool_decide_eq_true_2 by reflexivity.
    rewrite <- snapshot_value_eq. reflexivity.
  - eapply shell_calls_get_flags, Hflags.
Qed.

Lemma get_value_read_only_witness :
  let w := new_session (full_device (Ok (blit "true"))) in
  let w1 := (_get_aconfig_flags the_host w).2 in
  let flags :=
    store_flags [sample_flag ENABLED READ_WRITE;
                 sample_flag DISABLED READ_ONLY] ∅ in
  let f := sample_flag DISABLED READ_ONLY in
  _get_aconfig_flags the_host w = (Ok flags, w1)
  /\ flags !! flag_key (lit "sample") (lit "pkg.flag") = Some f
  /\ permission f = READ_ONLY
  /\ get_value the_host (lit "sample") (lit "pkg.flag") w
     = (Ok (Some (lit "false")), w1)
  /\ shell_calls (trace w1) = shell_calls (trace w).
Proof.
  intros w w1 flags f.
  assert (H1 : _get_aconfig_flags the_host w = (Ok flags, w1))
    by (vm_compute; reflexivity).
  assert (H2 : flags !! flag_key (lit "sample") (lit "pkg.flag") = Some f)
    by (vm_compute; reflexivity).
  assert (H3 : permission f = READ_ONLY) by reflexivity.
  exact (conj H1 (conj H2 (conj H3
    (get_value_read_only the_host (lit "sample") (lit "pkg.flag")
       w flags w1 f H1 H2 H3)))).
Defined.

(** C2.  When the snapshot entry of (namespace, name) is READ_WRITE and
    the device answers the query, [get_value] returns the trimmed answer
    itself if it differs from "null", and the snapshot-derived value
    ("true" for ENABLED, "false" for DISABLED) if it is "null". *)
Theorem get_value_read_write host namespace name w flags w1 f raw text :
  _get_aconfig_flags host w = (Ok flags, w1) ->
  flags !! flag_key namespace name = Some f ->
  permission f = READ_WRITE ->
  adb_shell (_ad (self w1)) (trace w1) (device_config_get namespace name)
  = Ok raw ->
  decode_utf8 raw = Some text ->
  (strip text ≠ lit "null" ->
   get_value host namespace name w
   = (Ok (Some (strip text)),
      log (EvShell (device_config_get namespace name)) w1))
  /\ (strip text = lit "null" ->
      get_value host namespace name w
      = (Ok (Some (snapshot_value (state f))),
         log (EvShell (device_config_get namespace name)) w1)).
Proof.
  intros Hflags Hf Hperm Hraw Htext.
  rewrite get_value_unfold, Hflags, Hf, Hperm.
  rewrite bool_decide_eq_false_2 by discriminate.
  unfold live_or. rewrite Hraw, Htext. split; intros Hnull.
  - rewrite bool_decide_eq_true_2 by exact Hnull. reflexivity.
  - rewrite bool_decide_eq_false_2 by (intros H; exact (H Hnull)).
    reflexivity.
Qed.

(** C3.  When the index has no entry for (namespace, name) and the device
    answers the query, [get_value] returns exactly the trimmed answer if
    it differs from "null", and [None] if it is "null". *)
Theorem get_value_missing host namespace name w flags w1 raw text :
  _get_aconfig_flags host w = (Ok flags, w1) ->
  flags !! flag_key namespace name = None ->
  adb_shell (_ad (self w1)) (trace w1) (device_config_get namespace name)
  = Ok raw ->
  decode_utf8 raw = Some text ->
  (strip text ≠ lit "null" ->
   get_value host namespace name w
   = (Ok (Some (strip text)),
      log (EvShell (device_config_get namespace name)) w1))
  /\ (strip text = lit "null" ->
      get_value host namespace name w
      = (Ok None, log (EvShell (device_config_get namespace name)) w1)).
Proof.
  intros Hflags Hf Hraw Htext.
  rewrite get_value_unfold, Hflags, Hf.
  unfold live_or. rewrite Hraw, Htext. split; intros Hnull.
  - rewrite bool_decide_eq_true_2 by exact Hnull. reflexivity.
  - rewrite bool_decide_eq_false_2 by (intros H; exact (H Hnull)).
    reflexivity.
Qed.

Lemma get_value_read_write_witness :
  let f := test_flag ENABLED READ_WRITE in
  let flags := test_index ENABLED READ_WRITE in
  let cmd := device_config_get (lit "sample") (lit "flag") in
  let w := preset_session (test_device (blit "false")) flags in
  let w' := preset_session (test_device (blit "null")) flags in
  (_get_aconfig_flags the_host w = (Ok flags, w)
   /\ flags !! flag_key (lit "sample") (lit "flag") = Some f
   /\ permission f = READ_WRITE
   /\ adb_shell (_ad (self w)) (trace w) cmd = Ok (blit "false")
   /\ decode_utf8 (blit "false") = Some (lit "false")
   /\ strip (lit "false") ≠ lit "null"
   /\ get_value the_host (lit "sample") (lit "flag") w
      = (Ok (Some (lit "false")), log (EvShell cmd) w))
  /\ (_get_aconfig_flags the_host w' = (Ok flags, w')
      /\ adb_shell (_ad (self w')) (trace w') cmd = Ok (blit "null")
      /\ decode_utf8 (blit "null") = Some (lit "null")
      /\ strip (lit "null") = lit "null"
      /\ get_value the_host (lit "sample") (lit "flag") w'
         = (Ok (Some (lit "true")), log (EvShell cmd) w')).
Proof.
  intros f flags cmd w w'.
  assert (H1 : _get_aconfig_flags the_host w = (Ok flags, w)) by reflexivity.
  assert (H1' : _get_aconfig_flags the_host w' = (Ok flags, w'))
    by reflexivity.
  assert (H2 : flags !! flag_key (lit "sample") (lit "flag") = Some f)
    by (vm_compute; reflexivity).
  assert (H3 : permission f = READ_WRITE) by reflexivity.
  assert (H4 : adb_shell (_ad (self w)) (trace w) cmd = Ok (blit "false"))
    by reflexivity.
  assert (H4' : adb_shell (_ad (self w')) (trace w') cmd = Ok (blit "null"))
    by reflexivity.
  assert (H5 : decode_utf8 (blit "false") = Some (lit "false"))
    by (vm_compute; reflexivity).
  assert (H5' : decode_utf8 (blit "null") = Some (lit "null"))
    by (vm_compute; reflexivity).
  assert (H6 : strip (lit "false") ≠ lit "null")
    by (vm_compute; discriminate).
  assert (H6' : strip (lit "null") = lit "null") by (vm_compute; reflexivity).
  exact (conj
    (conj H1 (conj H2 (conj H3 (conj H4 (conj H5 (conj H6
       (proj1 (get_value_read_write the_host (lit "sample") (lit "flag")
                 w flags w f _ _ H1 H2 H3 H4 H5) H6)))))))
    (conj H1' (conj H4' (conj H5' (conj H6'
       (proj2 (get_value_read_write the_host (lit "sample") (lit "flag")
                 w' flags w' f _ _ H1' H2 H3 H4' H5') H6')))))).
Defined.

Lemma get_value_missing_witness :
  let flags : gmap str parsed_flag := ∅ in
  let cmd := device_config_get (lit "sample") (lit "flag") in
  let w := preset_session (test_device (blit "foo")) flags in
  let w' := preset_session (test_device (blit "null")) flags in
  (_get_aconfig_flags the_host w = (Ok flags, w)
   /\ flags !! flag_key (lit "sample") (lit "flag") = None
   /\ adb_shell (_ad (self w)) (trace w) cmd = Ok (blit "foo")
   /\ decode_utf8 (blit "foo") = Some (lit "foo")
   /\ strip (lit "foo") ≠ lit "null"
   /\ get_value the_host (lit "sample") (lit "flag") w
      = (Ok (Some (lit "foo")), log (EvShell cmd) w))
  /\ (_get_aconfig_flags the_host w' = (Ok flags, w')
      /\ adb_shell (_ad (self w')) (trace w') cmd = Ok (blit "null")
      /\ decode_utf8 (blit "null") = Some (lit "null")
      /\ strip (lit "null") = lit "null"
      /\ get_value the_host (lit "sample") (lit "flag") w'
         = (Ok None, log (EvShell cmd) w')).
Proof.
  intros flags cmd w w'.
  assert (H1 : _get_aconfig_flags the_host w = (Ok flags, w)) by reflexivity.
  assert (H1' : _get_aconfig_flags the_host w' = (Ok flags, w'))
    by reflexivity.
  assert (H2 : flags !! flag_key (lit "sample") (lit "flag") = None)
    by reflexivity.
  assert (H4 : adb_shell (_ad (self w)) (trace w) cmd = Ok (blit "foo"))
    by reflexivity.
  assert (H4' : adb_shell (_ad (self w')) (trace w') cmd = Ok (blit "null"))
    by reflexivity.
  assert (H5 : decode_utf8 (blit "foo") = Some (lit "foo"))
    by (vm_compute; reflexivity).
  assert (H5' : decode_utf8 (blit "null") = Some (lit "null"))
    by (vm_compute; reflexivity).
  assert (H6 : strip (lit "foo") ≠ lit "null")
    by (vm_compute; discriminate).
  assert (H6' : strip (lit "null") = lit "null") by (vm_compute; reflexivity).
  exact (conj
    (conj H1 (conj H2 (conj H4 (conj H5 (conj H6
       (proj1 (get_value_missing the_host (lit "sample") (lit "flag")
                 w flags w _ _ H1 H2 H4 H5) H6))))))
    (conj H1' (conj H4' (conj H5' (conj H6'
       (proj2 (get_value_missing the_host (lit "sample") (lit "flag")
                 w' flags w' _ _ H1' H2 H4' H5') H6')))))).
Defined.

(** C10.  [get_value] never returns the string "null": what it returns
    is [None], a snapshot-derived "true" or "false", or the trimmed
    answer of the device, which was checked to differ from "null".  An
    answer that is empty after trimming counts as an override and is
    returned as the empty string. *)
Theorem get_value_never_null host namespace name w :
  (forall r w',
     get_value host namespace name w = (Ok r, w') ->
     r ≠ Some (lit "null")
     /\ (r = None \/ r = Some (lit "true") \/ r = Some (lit "false")
         \/ live_answer host namespace name w r))
  /\ (forall flags w1 raw,
        _get_aconfig_flags host w = (Ok flags, w1) ->
        (forall f, flags !! flag_key namespace name = Some f ->
                   permission f = READ_WRITE) ->
        adb_shell (_ad (self w1)) (trace w1)
          (device_config_get namespace name) = Ok raw ->
        (exists text, decode_utf8 raw = Some text /\ strip text = []) ->
        get_value host namespace name w
        = (Ok (Some []),
           log (EvShell (device_config_get namespace name)) w1)).
Proof.
  split.
  - intros r w'. fold (resolved host namespace name w r).
    rewrite get_value_unfold.
    destruct (_get_aconfig_flags host w) as [[flags|e] w1] eqn:Hflags;
      [|discriminate].
    assert (Hsnap : forall s,
      resolved host namespace name w (Some (snapshot_value s))).
    { intros s. split; destruct s; simpl; auto; discriminate. }
    assert (Hlive : forall fb,
      resolved host namespace name w fb ->
      live_or namespace name fb w1 = (Ok r, w') ->
      resolved host namespace name w r).
    { intros fb Hfb. unfold live_or.
      destruct (adb_shell _ _ _) as [raw|e] eqn:Hraw; [|discriminate].
      destruct (decode_utf8 raw) as [text|] eqn:Htext; [|discriminate].
      intros H. injection H as <- <-.
      destruct (decide (strip text ≠ lit "null")) as [Hn|Hn].
      - rewrite bool_decide_eq_true_2 by exact Hn. split.
        + intros H. injection H as H. exact (Hn H).
        + right; right; right. exists flags, w1, raw, text. auto.
      - rewrite bool_decide_eq_false_2 by exact Hn. exact Hfb. }
    destruct (flags !! flag_key namespace name) as [f|].
    + destruct (bool_decide (permission f = READ_ONLY)).
      * intros H. injection H as <- <-. apply Hsnap.
      * apply Hlive, Hsnap.
    + apply Hlive. split; [discriminate | auto].
  - intros flags w1 raw Hflags Hperm Hraw (text & Htext & Hempty).
    rewrite get_value_unfold, Hflags.
    assert (Hlive : forall fb,
      live_or namespace name fb w1
      = (Ok (Some []), log (EvShell (device_config_get namespace name)) w1)).
    { intros fb. unfold live_or. rewrite Hraw, Htext, Hempty.
      reflexivity. }
    destruct (flags !! flag_key namespace name) as [f|] eqn:Hf; [|apply Hlive].
    rewrite (Hperm f eq_refl).
    rewrite bool_decide_eq_false_2 by discriminate. apply Hlive.
Qed.

Lemma get_value_never_null_witness :
  let flags := test_index ENABLED READ_WRITE in
  let cmd := device_config_get (lit "sample") (lit "flag") in
  let w := preset_session (test_device (blit "null")) flags in
  let w' := preset_session (test_device [x0a; x20]%byte) flags in
  (get_value the_host (lit "sample") (lit "flag") w
   = (Ok (Some (lit "true")), log (EvShell cmd) w)
   /\ Some (lit "true") ≠ Some (lit "null"))
  /\ (_get_aconfig_flags the_host w' = (Ok flags, w')
      /\ (forall f, flags !! flag_key (lit "sample") (lit "flag") = Some f ->
                    permission f = READ_WRITE)
      /\ adb_shell (_ad (self w')) (trace w') cmd = Ok [x0a; x20]%byte
      /\ (exists text,
            decode_utf8 [x0a; x20]%byte = Some text /\ strip text = [])
      /\ get_value the_host (lit "sample") (lit "flag") w'
         = (Ok (Some []), log (EvShell cmd) w')).
Proof.
  intros flags cmd w w'.
  assert (H0 : get_value the_host (lit "sample") (lit "flag") w
               = (Ok (Some (lit "true")), log (EvShell cmd) w))
    by (vm_compute; reflexivity).
  assert (H1 : _get_aconfig_flags the_host w' = (Ok flags, w'))
    by reflexivity.
  assert (H2 : forall f,
             flags !! flag_key (lit "sample") (lit "flag") = Some f ->
             permission f = READ_WRITE).
  { intros f. vm_compute. intros H. injection H as <-. reflexivity. }
  assert (H3 : adb_shell (_ad (self w')) (trace w') cmd = Ok [x0a; x20]%byte)
    by reflexivity.
  assert (H4 : exists text,
             decode_utf8 [x0a; x20]%byte = Some text /\ strip text = []).
  { exists [10; 32]. split; vm_compute; reflexivity. }
  exact (conj
    (conj H0
       (proj1 (proj1 (get_value_never_null the_host (lit "sample")
                        (lit "flag") w) _ _ H0)))
    (conj H1 (conj H2 (conj H3 (conj H4
       (proj2 (get_value_never_null the_host (lit "sample") (lit "flag") w')
          flags w' _ H1 H2 H3 H4)))))).
Defined.

(** ** Boolean coercion *)

Lemma get_bool_unfold host namespace name w :
  get_bool host namespace name w =
  match get_value host namespace name w with
  | (Raise e, w') => (Raise e, w')
  | (Ok None, w') =>
    (Raise (AttributeError (lit "'NoneType' object has no attribute 'lower'")),
     w')
  | (Ok (Some v), w') =>
    if bool_decide (lower v = lit "true") then (Ok true, w')
    else if bool_decide (lower v = lit "false") then (Ok false, w')
    else (Raise (ValueError (not_a_boolean namespace name v)), w')
  end.
Proof.
  unfold get_bool. rewrite bind_unfold.
  destruct (get_value host namespace name w) as [[[v|]|e] w']; try reflexivity.
  destruct (bool_decide (lower v = lit "true")); [reflexivity|].
  destruct (bool_decide (lower v = lit "false")); reflexivity.
Qed.

Lemma get_bool_of_absent host namespace name w w' :
  get_value host namespace name w = (Ok None, w') ->
  get_bool host namespace name w
  = (Raise (AttributeError (lit "'NoneType' object has no attribute 'lower'")),
     w').
Proof. intros H. rewrite get_bool_unfold, H. reflexivity. Qed.

(** C8.  On a string value [v], [get_bool] returns [true] exactly when
    [v] is "true" up to the case of its letters, [false] exactly when it
    is "false" up to case, and for every other string raises the
    [ValueError] whose message carries the namespace, the name and [v]
    itself. *)
Theorem get_bool_strict host namespace name w v w' :
  get_value host namespace name w = (Ok (Some v), w') ->
  (get_bool host namespace name w = (Ok true, w')
   <-> equals_ignoring_case v (lit "true"))
  /\ (get_bool host namespace name w = (Ok false, w')
      <-> equals_ignoring_case v (lit "false"))
  /\ (~ equals_ignoring_case v (lit "true") ->
      ~ equals_ignoring_case v (lit "false") ->
      get_bool host namespace name w
      = (Raise (ValueError
                  (lit "Flag " ++ namespace ++ lit "/" ++ name
                     ++ lit " is not a boolean (value: " ++ v ++ lit ").")),
         w')).
Proof.
  intros Hv. rewrite get_bool_unfold, Hv.
  rewrite <- (lower_word v _ true_is_lower).
  rewrite <- (lower_word v _ false_is_lower).
  destruct (decide (lower v = lit "true")) as [Ht|Ht].
  - rewrite bool_decide_eq_true_2 by exact Ht.
    repeat split; try tauto; try discriminate.
    intros Hf. rewrite Ht in Hf. discriminate.
  - rewrite bool_decide_eq_false_2 by exact Ht.
    destruct (decide (lower v = lit "false")) as [Hf|Hf].
    + rewrite bool_decide_eq_true_2 by exact Hf.
      repeat split; try tauto; try discriminate.
    + rewrite bool_decide_eq_false_2 by exact Hf.
      repeat split; try tauto; try discriminate.
Qed.

Lemma get_bool_strict_witness :
  let w := preset_session (test_device (blit "TRUE")) ∅ in
  let w' := preset_session (test_device (blit "foo")) ∅ in
  let cmd := device_config_get (lit "sample") (lit "flag") in
  (get_value the_host (lit "sample") (lit "flag") w
   = (Ok (Some (lit "TRUE")), log (EvShell cmd) w)
   /\ equals_ignoring_case (lit "TRUE") (lit "true")
   /\ get_bool the_host (lit "sample") (lit "flag") w
      = (Ok true, log (EvShell cmd) w))
  /\ (get_value the_host (lit "sample") (lit "flag") w'
      = (Ok (Some (lit "foo")), log (EvShell cmd) w')
      /\ ~ equals_ignoring_case (lit "foo") (lit "true")
      /\ ~ equals_ignoring_case (lit "foo") (lit "false")
      /\ get_bool the_host (lit "sample") (lit "flag") w'
         = (Raise (ValueError
                     (lit "Flag sample/flag is not a boolean (value: foo).")),
            log (EvShell cmd) w')).
Proof.
  intros w w' cmd.
  assert (H1 : get_value the_host (lit "sample") (lit "flag") w
               = (Ok (Some (lit "TRUE")), log (EvShell cmd) w))
    by (vm_compute; reflexivity).
  assert (H1' : get_value the_host (lit "sample") (lit "flag") w'
                = (Ok (Some (lit "foo")), log (EvShell cmd) w'))
    by (vm_compute; reflexivity).
  assert (H2 : equals_ignoring_case (lit "TRUE") (lit "true"))
    by (apply (lower_word _ _ true_is_lower); vm_compute; reflexivity).
  assert (H3 : ~ equals_ignoring_case (lit "foo") (lit "true"))
    by (rewrite <- (lower_word _ _ true_is_lower); vm_compute; discriminate).
  assert (H4 : ~ equals_ignoring_case (lit "foo") (lit "false"))
    by (rewrite <- (lower_word _ _ false_is_lower); vm_compute; discriminate).
  exact (conj
    (conj H1 (conj H2
       (proj2 (proj1 (get_bool_strict the_host (lit "sample") (lit "flag")
                        w _ _ H1)) H2)))
    (conj H1' (conj H3 (conj H4
       (proj2 (proj2 (get_bool_strict the_host (lit "sample") (lit "flag")
                        w' _ _ H1')) H3 H4))))).
Defined.

(** C4.  The code at the input of the claim: with an empty index and the
    device answering "null", [get_value] returns [None] and [get_bool]
    then raises [AttributeError], from [val.lower()], not the
    [ValueError] it raises for a string such as "foo". *)
Theorem get_bool_absent_is_attribute_error :
  let w := preset_session (test_device (blit "null")) ∅ in
  let w' := preset_session (test_device (blit "foo")) ∅ in
  let cmd := device_config_get (lit "sample") (lit "flag") in
  get_value the_host (lit "sample") (lit "flag") w
  = (Ok None, log (EvShell cmd) w)
  /\ get_bool the_host (lit "sample") (lit "flag") w
     = (Raise (AttributeError
                 (lit "'NoneType' object has no attribute 'lower'")),
        log (EvShell cmd) w)
  /\ (forall msg,
        (get_bool the_host (lit "sample") (lit "flag") w).1
        ≠ Raise (ValueError msg))
  /\ get_bool the_host (lit "sample") (lit "flag") w'
     = (Raise (ValueError
                 (lit "Flag sample/flag is not a boolean (value: foo).")),
        log (EvShell cmd) w').
Proof.
  intros w w' cmd.
  assert (H : get_value the_host (lit "sample") (lit "flag") w
              = (Ok None, log (EvShell cmd) w)) by (vm_compute; reflexivity).
  split; [exact H|]. split; [exact (get_bool_of_absent _ _ _ _ _ H)|].
  split.
  - intros msg. rewrite (get_bool_of_absent _ _ _ _ _ H). discriminate.
  - vm_compute. reflexivity.
Qed.

(** ** The snapshot index *)

Lemma store_flags_app l1 l2 d :
  store_flags (l1 ++ l2) d = store_flags l2 (store_flags l1 d).
Proof. apply fold_left_app. Qed.

Lemma store_flags_lookup flags d k :
  store_flags flags d !! k =
  match last_with_key k flags with
  | Some r => Some r
  | None => d !! k
  end.
Proof.
  revert d. induction flags as [|flag flags IH]; intros d; simpl.
  - reflexivity.
  - change (fold_left _ flags ?m) with (store_flags flags m).
    rewrite IH. destruct (last_with_key k flags); [reflexivity|].
    rewrite lookup_insert.
    case_bool_decide; case_decide; done.
Qed.

Lemma last_with_key_app k l1 l2 :
  last_with_key k (l1 ++ l2) =
  match last_with_key k l2 with
  | Some r => Some r
  | None => last_with_key k l1
  end.
Proof.
  induction l1 as [|flag l1 IH]; simpl.
  - destruct (last_with_key k l2); reflexivity.
  - rewrite IH. destruct (last_with_key k l2); reflexivity.
Qed.

Lemma last_with_key_concat_none k (docs : str -> list parsed_flag) ps :
  (forall s, s ∈ ps -> last_with_key k (docs s) = None) ->
  last_with_key k (concat (map docs ps)) = None.
Proof.
  induction ps as [|p ps IH]; intros H; simpl; [reflexivity|].
  rewrite last_with_key_app, IH.
  - apply H. left.
  - intros s Hs. apply H. right. exact Hs.
Qed.

Lemma for_partitions_serves host d (docs : str -> list parsed_flag) ps w idx :
  (forall s, s ∈ ps -> serves (_ad (self w)) host s (docs s)) ->
  _aconfig_flags (self w) = Some idx ->
  exists w',
    for_ ps (load_partition host d) w = (Ok tt, w')
    /\ _aconfig_flags (self w')
       = Some (store_flags (concat (map docs ps)) idx)
    /\ loop_frame d ps w w'.
Proof.
  revert w idx. induction ps as [|p ps IH]; intros w idx Hs Hidx.
  - exists w. repeat split; auto. simpl. rewrite app_nil_r. reflexivity.
  - simpl. rewrite bind_unfold.
    rewrite (load_partition_unfold _ _ _ _ idx Hidx). simpl.
    destruct (Hs p (list_elem_of_here _ _) (trace w) (host_path d p))
      as (content & -> & ->).
    match goal with |- context [for_ ps _ ?w1] =>
      destruct (IH w1 (store_flags (docs p) idx))
        as (w' & Hrun & Hidx' & Had & Hsome & Htd & Htr)
    end.
    + intros s Hin. simpl. apply Hs. right. exact Hin.
    + reflexivity.
    + exists w'. rewrite Hrun, Hidx', store_flags_app.
      repeat split; auto.
      rewrite Htr. simpl. rewrite <- app_assoc. reflexivity.
Qed.

Lemma load_partition_fails host d p w idx e :
  _aconfig_flags (self w) = Some idx ->
  fails (_ad (self w)) host p e ->
  exists w',
    load_partition host d p w = (Raise e, w')
    /\ _aconfig_flags (self w') = Some idx
    /\ loop_frame d [p] w w'.
Proof.
  intros Hidx Hf. rewrite (load_partition_unfold _ _ _ _ idx Hidx). simpl.
  destruct (Hf (trace w) (host_path d p)) as [-> | (content & -> & ->)];
    eexists; (split; [reflexivity|]); simpl; rewrite Hidx;
    unfold loop_frame; simpl; rewrite ?Hidx; eauto.
Qed.

Lemma load_serves host d (docs : str -> list parsed_flag) w :
  mkdtemp host (trace w) = Ok d ->
  (forall s, s ∈ _ACONFIG_PARTITIONS ->
             serves (_ad (self w)) host s (docs s)) ->
  exists w',
    _load_aconfig_flags host w = (Ok tt, w')
    /\ _aconfig_flags (self w')
       = Some (store_flags (concat (map docs _ACONFIG_PARTITIONS)) ∅).
Proof.
  intros Hd Hs. rewrite load_unfold, Hd.
  destruct (for_partitions_serves host d docs _ACONFIG_PARTITIONS
              (load_entered d w) ∅) as (w2 & -> & Hidx & _).
  - exact Hs.
  - reflexivity.
  - exists (cleanup d w2). split; [reflexivity | exact Hidx].
Qed.

(** C6.  When every partition document is pulled and parsed, and a key is
    defined in partition [p] and in a later partition [q] (and in none
    after [q]), the index built by the load maps the key to the record of
    [q].  With [p] = product and [q] = vendor, the vendor definition is
    the one kept. *)
Theorem later_partition_wins host w d (docs : str -> list parsed_flag)
    key p q l1 l2 l3 rp rq :
  mkdtemp host (trace w) = Ok d ->
  (forall s, s ∈ _ACONFIG_PARTITIONS ->
             serves (_ad (self w)) host s (docs s)) ->
  _ACONFIG_PARTITIONS = l1 ++ p :: l2 ++ q :: l3 ->
  last_with_key key (docs p) = Some rp ->
  last_with_key key (docs q) = Some rq ->
  (forall s, s ∈ l3 -> last_with_key key (docs s) = None) ->
  exists w' index,
    _load_aconfig_flags host w = (Ok tt, w')
    /\ _aconfig_flags (self w') = Some index
    /\ index !! key = Some rq.
Proof.
  intros Hd Hs Hparts Hp Hq Hlater.
  destruct (load_serves host d docs w Hd Hs) as (w' & Hload & Hidx).
  exists w', (store_flags (concat (map docs _ACONFIG_PARTITIONS)) ∅).
  split; [exact Hload|]. split; [exact Hidx|].
  rewrite store_flags_lookup, Hparts.
  rewrite map_app, concat_app, last_with_key_app. simpl.
  rewrite last_with_key_app, map_app, concat_app, last_with_key_app. simpl.
  rewrite last_with_key_app.
  rewrite (last_with_key_concat_none key docs l3 Hlater), Hq. reflexivity.
Qed.

Lemma full_device_serves live s :
  s ∈ _ACONFIG_PARTITIONS ->
  serves (full_device live) the_host s (full_docs s).
Proof.
  intros Hs h hp. unfold _ACONFIG_PARTITIONS in Hs.
  repeat (apply elem_of_cons in Hs as [->|Hs]);
    [exists (lit "rw-on") | exists (lit "none") | exists (lit "none")
     | exists (lit "ro-off") | inversion Hs ];
    split; vm_compute; reflexivity.
Qed.

Lemma later_partition_wins_witness :
  let w := new_session (full_device (Ok (blit "null"))) in
  let key := lit "sample/pkg.flag" in
  mkdtemp the_host (trace w) = Ok (lit "/tmp/tmpq1w2e3")
  /\ _ACONFIG_PARTITIONS
     = [] ++ lit "product" :: [lit "system"; lit "system_ext"]
          ++ lit "vendor" :: []
  /\ last_with_key key (full_docs (lit "product"))
     = Some (sample_flag ENABLED READ_WRITE)
  /\ last_with_key key (full_docs (lit "vendor"))
     = Some (sample_flag DISABLED READ_ONLY)
  /\ exists w' index,
       _load_aconfig_flags the_host w = (Ok tt, w')
       /\ _aconfig_flags (self w') = Some index
       /\ index !! key = Some (sample_flag DISABLED READ_ONLY).
Proof.
  intros w key.
  assert (H1 : mkdtemp the_host (trace w) = Ok (lit "/tmp/tmpq1w2e3"))
    by reflexivity.
  assert (H2 : _ACONFIG_PARTITIONS
               = [] ++ lit "product" :: [lit "system"; lit "system_ext"]
                    ++ lit "vendor" :: []) by reflexivity.
  assert (H3 : last_with_key key (full_docs (lit "product"))
               = Some (sample_flag ENABLED READ_WRITE))
    by (vm_compute; reflexivity).
  assert (H4 : last_with_key key (full_docs (lit "vendor"))
               = Some (sample_flag DISABLED READ_ONLY))
    by (vm_compute; reflexivity).
  assert (H5 : forall s : str,
             s ∈ @nil str -> last_with_key key (full_docs s) = None)
    by (intros s Hs; inversion Hs).
  exact (conj H1 (conj H2 (conj H3 (conj H4
    (later_partition_wins the_host w _ full_docs key _ _ _ _ _ _ _
       H1 (full_device_serves _) H2 H3 H4 H5))))).
Defined.

(** ** A load that fails *)

Lemma pulled_app t1 t2 : pulled (t1 ++ t2) = pulled t1 ++ pulled t2.
Proof. apply omap_app. Qed.

(** C5, as stated, fails.  On a device whose [product] document is
    pulled and parsed and whose [system] pull fails, the first
    [get_value] raises the [AdbError], but the session is not as if no
    load had occurred: the index is no longer [None], it holds the record
    of [product], and the next [get_value] is served from that record
    without any pull. *)
Lemma load_failure_keeps_partial_index :
  let w := new_session (broken_device (Ok (blit "null"))) in
  let key := lit "sample/pkg.flag" in
  let r1 := get_value the_host (lit "sample") (lit "pkg.flag") w in
  let r2 := get_value the_host (lit "sample") (lit "pkg.flag") r1.2 in
  _aconfig_flags (self w) = None
  /\ r1.1 = Raise AdbError
  /\ _aconfig_flags (self r1.2)
     = Some {[ key := sample_flag ENABLED READ_WRITE ]}
  /\ _aconfig_flags (self r1.2) ≠ _aconfig_flags (self w)
  /\ r2.1 = Ok (Some (lit "true"))
  /\ pulled (trace r2.2) = pulled (trace r1.2).
Proof.
  intros w key r1 r2.
  assert (H : _aconfig_flags (self r1.2)
              = Some {[ key := sample_flag ENABLED READ_WRITE ]})
    by (vm_compute; reflexivity).
  split; [reflexivity|]. split; [vm_compute; reflexivity|].
  split; [exact H|]. split; [rewrite H; discriminate|].
  split; vm_compute; reflexivity.
Qed.

(** C5, amended.  When the documents of the partitions [done] are pulled
    and parsed and the pull or the parse of the next partition [p] raises
    [e], the load raises [e] and pulls no later partition; the index is
    then the dictionary of the records of [done] (not [None]), so that
    later lookups are served from it without a new load; a [get_value]
    that triggered the load raises [e] as well. *)
Theorem load_failure_leaves_earlier_records host w d
    (docs : str -> list parsed_flag) done p rest e :
  mkdtemp host (trace w) = Ok d ->
  _ACONFIG_PARTITIONS = done ++ p :: rest ->
  (forall s, s ∈ done -> serves (_ad (self w)) host s (docs s)) ->
  fails (_ad (self w)) host p e ->
  exists w',
    _load_aconfig_flags host w = (Raise e, w')
    /\ _aconfig_flags (self w')
       = Some (store_flags (concat (map docs done)) ∅)
    /\ pulled (trace w')
       = pulled (trace w) ++ map device_path (done ++ [p])
    /\ _get_aconfig_flags host w'
       = (Ok (store_flags (concat (map docs done)) ∅), w')
    /\ (_aconfig_flags (self w) = None ->
        forall namespace name,
          get_value host namespace name w = (Raise e, w')).
Proof.
  intros Hd Hparts Hs Hf.
  destruct (for_partitions_serves host d docs done (load_entered d w) ∅)
    as (w1 & Hrun & Hidx & Had & _ & _ & Htr); [exact Hs | reflexivity |].
  destruct (load_partition_fails host d p w1 _ e Hidx)
    as (w2 & Hp & Hidx2 & _ & _ & _ & Htr2).
  { rewrite Had. exact Hf. }
  assert (Hload : _load_aconfig_flags host w = (Raise e, cleanup d w2)).
  { rewrite load_unfold, Hd, Hparts, for_app, Hrun. simpl.
    rewrite bind_unfold, Hp. reflexivity. }
  assert (Hidx3 : _aconfig_flags (self (cleanup d w2))
                  = Some (store_flags (concat (map docs done)) ∅))
    by exact Hidx2.
  exists (cleanup d w2). split; [exact Hload|]. split; [exact Hidx3|].
  split; [|split].
  - simpl. rewrite Htr2, Htr. simpl.
    rewrite !pulled_app, pulled_pulls. simpl.
    rewrite map_app, !app_nil_r, <- !app_assoc. reflexivity.
  - apply get_flags_cached, Hidx3.
  - intros Hnone namespace name.
    rewrite get_value_unfold, (get_flags_unloaded _ _ Hnone), Hload.
    reflexivity.
Qed.

Lemma broken_device_serves live s :
  s ∈ [lit "product"] ->
  serves (broken_device live) the_host s (full_docs s).
Proof.
  intros Hs h hp.
  repeat (apply elem_of_cons in Hs as [->|Hs]);
    [exists (lit "rw-on") | inversion Hs ];
    split; vm_compute; reflexivity.
Qed.

Lemma load_failure_leaves_earlier_records_witness :
  let w := new_session (broken_device (Ok (blit "null"))) in
  mkdtemp the_host (trace w) = Ok (lit "/tmp/tmpq1w2e3")
  /\ _ACONFIG_PARTITIONS
     = [lit "product"] ++ lit "system" :: [lit "system_ext"; lit "vendor"]
  /\ fails (_ad (self w)) the_host (lit "system") AdbError
  /\ exists w',
       _load_aconfig_flags the_host w = (Raise AdbError, w')
       /\ _aconfig_flags (self w')
          = Some (store_flags
                    (concat (map full_docs [lit "product"])) ∅)
       /\ pulled (trace w')
          = pulled (trace w)
            ++ map device_path ([lit "product"] ++ [lit "system"])
       /\ _get_aconfig_flags the_host w'
          = (Ok (store_flags (concat (map full_docs [lit "product"])) ∅),
             w')
       /\ (_aconfig_flags (self w) = None ->
           forall namespace name,
             get_value the_host namespace name w = (Raise AdbError, w')).
Proof.
  intros w.
  assert (H1 : mkdtemp the_host (trace w) = Ok (lit "/tmp/tmpq1w2e3"))
    by reflexivity.
  assert (H2 : _ACONFIG_PARTITIONS
               = [lit "product"] ++ lit "system"
                   :: [lit "system_ext"; lit "vendor"]) by reflexivity.
  assert (H3 : fails (_ad (self w)) the_host (lit "system") AdbError)
    by (intros h hp; left; vm_compute; reflexivity).
  exact (conj H1 (conj H2 (conj H3
    (load_failure_leaves_earlier_records the_host w _ full_docs
       _ _ _ _ H1 H2 (broken_device_serves _) H3)))).
Defined.

(** ** Load once *)

Lemma live_or_world namespace name fb w r w' :
  live_or namespace name fb w = (r, w') ->
  w' = log (EvShell (device_config_get namespace name)) w.
Proof.
  unfold live_or. destruct (adb_shell _ _ _) as [raw|e].
  - destruct (decode_utf8 raw); intros H; injection H as _ <-; reflexivity.
  - intros H; injection H as _ <-; reflexivity.
Qed.

Lemma get_value_world host namespace name w :
  (get_value host namespace name w).2 = (_get_aconfig_flags host w).2
  \/ (get_value host namespace name w).2
     = log (EvShell (device_config_get namespace name))
         (_get_aconfig_flags host w).2.
Proof.
  rewrite get_value_unfold.
  destruct (_get_aconfig_flags host w) as [[flags|e] w1]; simpl; auto.
  destruct (flags !! flag_key namespace name) as [f|].
  - destruct (bool_decide (permission f = READ_ONLY)); simpl; auto.
    destruct (live_or _ _ _ w1) as [r w'] eqn:H.
    apply live_or_world in H. auto.
  - destruct (live_or _ _ _ w1) as [r w'] eqn:H.
    apply live_or_world in H. auto.
Qed.

Lemma get_bool_world host namespace name w :
  (get_bool host namespace name w).2 = (get_value host namespace name w).2.
Proof.
  rewrite get_bool_unfold.
  destruct (get_value host namespace name w) as [[[v|]|e] w']; try reflexivity.
  destruct (bool_decide (lower v = lit "true")); [reflexivity|].
  destruct (bool_decide (lower v = lit "false")); reflexivity.
Qed.

Lemma run_call_world host c w :
  run_call host c w = (_get_aconfig_flags host w).2
  \/ exists cmd,
       run_call host c w = log (EvShell cmd) (_get_aconfig_flags host w).2.
Proof.
  destruct c as [namespace name|namespace name]; simpl;
    rewrite ?get_bool_world;
    destruct (get_value_world host namespace name w) as [->| ->]; eauto.
Qed.

Lemma fetch_events_log_shell cmd w :
  fetch_events (trace (log (EvShell cmd) w)) = fetch_events (trace w).
Proof. simpl. rewrite fetch_events_app. simpl. apply app_nil_r. Qed.

Lemma run_call_cached host c w index :
  _aconfig_flags (self w) = Some index ->
  _aconfig_flags (self (run_call host c w)) = Some index
  /\ fetch_events (trace (run_call host c w)) = fetch_events (trace w).
Proof.
  intros Hidx.
  destruct (run_call_world host c w) as [->|[cmd ->]];
    rewrite (get_flags_cached _ _ _ Hidx); simpl;
    rewrite ?fetch_events_app; simpl; rewrite ?app_nil_r; auto.
Qed.

Lemma run_calls_cached host cs w index :
  _aconfig_flags (self w) = Some index ->
  _aconfig_flags (self (run_calls host cs w)) = Some index
  /\ fetch_events (trace (run_calls host cs w)) = fetch_events (trace w).
Proof.
  revert w. induction cs as [|c cs IH]; intros w Hidx; simpl; [auto|].
  destruct (run_call_cached host c w index Hidx) as [H1 H2].
  destruct (IH _ H1) as [H3 H4]. rewrite H3, H4. auto.
Qed.

Lemma fetch_events_load host w w' :
  load_trace host w w' ->
  fetch_events (trace w') = fetch_events (trace w)
  \/ exists d k,
       k `prefix_of` _ACONFIG_PARTITIONS
       /\ fetch_events (trace w')
          = fetch_events (trace w)
            ++ EvMkdtemp d :: map (pull_event d) k ++ [EvCleanup d].
Proof.
  intros [->|(d & k & _ & Hk & ->)]; [auto|].
  right. exists d, k. split; [exact Hk|].
  rewrite fetch_events_app. simpl.
  rewrite fetch_events_app, fetch_events_pulls. reflexivity.
Qed.

Lemma run_call_first host c ad :
  is_Some (_aconfig_flags (self (run_call host c (new_session ad))))
  /\ one_load (fetch_events (trace (run_call host c (new_session ad)))).
Proof.
  destruct (_get_aconfig_flags host (new_session ad)) as [r w1] eqn:Hget.
  pose proof (get_flags_frame _ _ _ _ Hget) as (_ & Hs & _ & _ & _ & Htr).
  assert (H1 : one_load (fetch_events (trace w1))).
  { destruct Htr as [-> | [_ Htr]]; [left; reflexivity|].
    apply fetch_events_load in Htr as [-> | (d & k & Hk & ->)];
      [left; reflexivity|].
    right. exists d, k. auto. }
  destruct (run_call_world host c (new_session ad)) as [->|[cmd ->]];
    rewrite Hget; simpl snd.
  - auto.
  - rewrite fetch_events_log_shell. auto.
Qed.

Lemma loads_started_fetch t :
  loads_started (fetch_events t) = loads_started t.
Proof.
  unfold loads_started, fetch_events.
  induction t as [|[] t IH]; simpl; auto.
Qed.

Lemma pulled_fetch t : pulled (fetch_events t) = pulled t.
Proof.
  unfold pulled, fetch_events.
  induction t as [|[] t IH]; simpl; auto. f_equal. exact IH.
Qed.

Lemma loads_started_pulls d k : loads_started (map (pull_event d) k) = 0%nat.
Proof. induction k; simpl; auto. Qed.

Lemma loads_started_app t1 t2 :
  loads_started (t1 ++ t2) = (loads_started t1 + loads_started t2)%nat.
Proof. unfold loads_started. rewrite List.filter_app. apply length_app. Qed.

Lemma one_load_bounds t :
  one_load (fetch_events t) ->
  (loads_started t <= 1)%nat
  /\ pulled t `prefix_of` map device_path _ACONFIG_PARTITIONS.
Proof.
  rewrite <- (loads_started_fetch t), <- (pulled_fetch t).
  intros [->|(d & k & [k' Hk] & ->)].
  - split; [unfold loads_started; simpl; lia | apply prefix_nil].
  - split.
    + change (EvMkdtemp d :: map (pull_event d) k ++ [EvCleanup d])
        with ([EvMkdtemp d] ++ map (pull_event d) k ++ [EvCleanup d]).
      rewrite !loads_started_app, loads_started_pulls.
      unfold loads_started. simpl. lia.
    + change (EvMkdtemp d :: map (pull_event d) k ++ [EvCleanup d])
        with ([EvMkdtemp d] ++ map (pull_event d) k ++ [EvCleanup d]).
      rewrite !pulled_app, pulled_pulls.
      change (pulled [EvMkdtemp d]) with (@nil str).
      change (pulled [EvCleanup d]) with (@nil str).
      rewrite app_nil_r. exists (map device_path k').
      rewrite Hk, map_app. reflexivity.
Qed.

(** C7.  In every session the snapshot fetch runs at most once: whatever
    calls to [get_value] and [get_bool] are made on a new object, at most
    one temporary directory is ever created and the pulls made are a
    prefix of the four partition documents, each pulled at most once.
    Once the index is in place, no later call fetches anything and every
    later call sees that same index. *)
Theorem snapshot_loaded_at_most_once host :
  (forall ad calls,
     (loads_started (trace (run_calls host calls (new_session ad))) <= 1)%nat
     /\ pulled (trace (run_calls host calls (new_session ad)))
        `prefix_of` map device_path _ACONFIG_PARTITIONS)
  /\ (forall w index calls,
        _aconfig_flags (self w) = Some index ->
        _aconfig_flags (self (run_calls host calls w)) = Some index
        /\ fetch_events (trace (run_calls host calls w))
           = fetch_events (trace w)).
Proof.
  split.
  - intros ad [|c cs]; apply one_load_bounds.
    + left. reflexivity.
    + simpl. destruct (run_call_first host c ad) as [[index Hidx] Hone].
      destruct (run_calls_cached host cs _ index Hidx) as [_ ->].
      exact Hone.
  - intros w index calls Hidx. apply run_calls_cached, Hidx.
Qed.

Lemma snapshot_loaded_at_most_once_witness :
  let ask := CallGetValue (lit "sample") (lit "pkg.flag") in
  let calls := [CallGetBool (lit "sample") (lit "pkg.flag");
                CallGetValue (lit "other") (lit "flag")] in
  let w := run_call the_host ask (new_session (full_device (Ok (blit "true")))) in
  let index :=
    store_flags [sample_flag ENABLED READ_WRITE;
                 sample_flag DISABLED READ_ONLY] ∅ in
  _aconfig_flags (self w) = Some index
  /\ _aconfig_flags (self (run_calls the_host calls w)) = Some index
  /\ fetch_events (trace (run_calls the_host calls w))
     = fetch_events (trace w).
Proof.
  intros ask calls w index.
  assert (H : _aconfig_flags (self w) = Some index)
    by (vm_compute; reflexivity).
  exact (conj H
    (proj2 (snapshot_loaded_at_most_once the_host) w index calls H)).
Defined.

(** ** The temporary directory *)

(** C9.  However [_load_aconfig_flags] ends, with a result or with an
    exception of any partition, the temporary directory it created is
    released: the live directories are those from before the load, the
    last effect of the load is the removal of its directory, and no file
    inside that directory remains. *)
Theorem temporary_directory_released host w r w' :
  _load_aconfig_flags host w = (r, w') ->
  tmp_dirs w' = tmp_dirs w
  /\ forall d,
       mkdtemp host (trace w) = Ok d ->
       (exists k,
          k `prefix_of` _ACONFIG_PARTITIONS
          /\ trace w' = trace w ++ EvMkdtemp d :: map (pull_event d) k
                          ++ [EvCleanup d])
       /\ forall p, inside d p = true -> files w' !! p = None.
Proof.
  intros Hload. split; [apply (load_frame _ _ _ _ Hload)|].
  intros d Hd. rewrite load_unfold, Hd in Hload.
  destruct (for_ _ (load_partition host d) (load_entered d w))
    as [r2 w2] eqn:Hloop.
  injection Hload as _ <-.
  apply for_partitions_frame in Hloop as (k & Hk & _ & _ & _ & Htr);
    [|simpl; eauto].
  split.
  - exists k. split; [exact Hk|]. simpl. rewrite Htr. simpl.
    rewrite <- !app_assoc. reflexivity.
  - intros p. apply cleanup_files.
Qed.

Lemma temporary_directory_released_witness :
  let d := lit "/tmp/tmpq1w2e3" in
  let w := new_session (broken_device (Ok (blit "null"))) in
  let w' := (_load_aconfig_flags the_host w).2 in
  let p := host_path d (lit "product") in
  _load_aconfig_flags the_host w = (Raise AdbError, w')
  /\ mkdtemp the_host (trace w) = Ok d
  /\ inside d p = true
  /\ tmp_dirs w' = tmp_dirs w
  /\ (exists k,
        k `prefix_of` _ACONFIG_PARTITIONS
        /\ trace w' = trace w ++ EvMkdtemp d :: map (pull_event d) k
                        ++ [EvCleanup d])
  /\ files w' !! p = None.
Proof.
  intros d w w' p.
  assert (H1 : _load_aconfig_flags the_host w = (Raise AdbError, w'))
    by (vm_compute; reflexivity).
  assert (H2 : mkdtemp the_host (trace w) = Ok d) by reflexivity.
  assert (H3 : inside d p = true) by (vm_compute; reflexivity).
  pose proof (temporary_directory_released the_host w _ w' H1) as [H4 H5].
  exact (conj H1 (conj H2 (conj H3 (conj H4
    (conj (proj1 (H5 d H2)) (proj2 (H5 d H2) p H3)))))).
Defined.

(** * Further properties of the module *)

(** ** What a load leaves in the index *)

Lemma load_serves_trace host d (docs : str -> list parsed_flag) w :
  mkdtemp host (trace w) = Ok d ->
  (forall s, s ∈ _ACONFIG_PARTITIONS ->
             serves (_ad (self w)) host s (docs s)) ->
  exists w',
    _load_aconfig_flags host w = (Ok tt, w')
    /\ _aconfig_flags (self w')
       = Some (store_flags (concat (map docs _ACONFIG_PARTITIONS)) ∅)
    /\ trace w' = trace w ++ EvMkdtemp d
                    :: map (pull_event d) _ACONFIG_PARTITIONS
                    ++ [EvCleanup d].
Proof.
  intros Hd Hs. rewrite load_unfold, Hd.
  destruct (for_partitions_serves host d docs _ACONFIG_PARTITIONS
              (load_entered d w) ∅) as (w2 & -> & Hidx & _ & _ & _ & Htr);
    [exact Hs | reflexivity |].
  exists (cleanup d w2). split; [reflexivity|]. split; [exact Hidx|].
  cbn [cleanup set_tmp_dirs set_files log set_trace trace].
  rewrite Htr. cbn [load_entered set_tmp_dirs set_self log set_trace trace].
  rewrite <- !app_assoc. reflexivity.
Qed.

(** X1.  After a load in which every partition document is pulled and
    parsed, the index is exactly the map of last definitions: a key is
    mapped to the last record that has it, in the order product, system,
    system_ext, vendor and then in document order, and a key that no
    document defines is absent, whatever the object held before. *)
Theorem loaded_index_is_last_definition host w d
    (docs : str -> list parsed_flag) :
  mkdtemp host (trace w) = Ok d ->
  (forall s, s ∈ _ACONFIG_PARTITIONS ->
             serves (_ad (self w)) host s (docs s)) ->
  exists w' index,
    _load_aconfig_flags host w = (Ok tt, w')
    /\ _aconfig_flags (self w') = Some index
    /\ forall key,
         index !! key
         = last_with_key key
             (docs (lit "product") ++ docs (lit "system")
                ++ docs (lit "system_ext") ++ docs (lit "vendor")).
Proof.
  intros Hd Hs.
  destruct (load_serves_trace host d docs w Hd Hs) as (w' & Hload & Hidx & _).
  exists w', (store_flags (concat (map docs _ACONFIG_PARTITIONS)) ∅).
  split; [exact Hload|]. split; [exact Hidx|].
  intros key. rewrite store_flags_lookup, lookup_empty.
  unfold _ACONFIG_PARTITIONS. simpl concat. rewrite app_nil_r.
  destruct (last_with_key key _); reflexivity.
Qed.

Lemma loaded_index_is_last_definition_witness :
  let w := preset_session (full_device (Ok (blit "null")))
             (test_index ENABLED READ_ONLY) in
  mkdtemp the_host (trace w) = Ok (lit "/tmp/tmpq1w2e3")
  /\ exists w' index,
       _load_aconfig_flags the_host w = (Ok tt, w')
       /\ _aconfig_flags (self w') = Some index
       /\ forall key,
            index !! key
            = last_with_key key
                (full_docs (lit "product") ++ full_docs (lit "system")
                   ++ full_docs (lit "system_ext")
                   ++ full_docs (lit "vendor")).
Proof.
  intros w.
  assert (H1 : mkdtemp the_host (trace w) = Ok (lit "/tmp/tmpq1w2e3"))
    by reflexivity.
  exact (conj H1
    (loaded_index_is_last_definition the_host w _ full_docs H1
       (full_device_serves _))).
Defined.

(** X2.  A load in which every partition document is pulled and parsed
    creates one directory, pulls the four documents once each, in the
    order product, system, system_ext, vendor and from the paths
    [/<partition>/etc/aconfig_flags.textproto], removes the directory,
    and does nothing else. *)
Theorem successful_load_pulls_each_partition_once host w d
    (docs : str -> list parsed_flag) :
  mkdtemp host (trace w) = Ok d ->
  (forall s, s ∈ _ACONFIG_PARTITIONS ->
             serves (_ad (self w)) host s (docs s)) ->
  exists w',
    _load_aconfig_flags host w = (Ok tt, w')
    /\ trace w'
       = trace w
         ++ [EvMkdtemp d;
             pull_event d (lit "product"); pull_event d (lit "system");
             pull_event d (lit "system_ext"); pull_event d (lit "vendor");
             EvCleanup d]
    /\ pulled (trace w')
       = pulled (trace w)
         ++ [lit "/product/etc/aconfig_flags.textproto";
             lit "/system/etc/aconfig_flags.textproto";
             lit "/system_ext/etc/aconfig_flags.textproto";
             lit "/vendor/etc/aconfig_flags.textproto"].
Proof.
  intros Hd Hs.
  destruct (load_serves_trace host d docs w Hd Hs) as (w' & Hload & _ & Htr).
  exists w'. split; [exact Hload|]. split; [exact Htr|].
  rewrite Htr, pulled_app. f_equal.
Qed.

Lemma successful_load_pulls_each_partition_once_witness :
  let w := new_session (full_device (Ok (blit "null"))) in
  let d := lit "/tmp/tmpq1w2e3" in
  mkdtemp the_host (trace w) = Ok d
  /\ exists w',
       _load_aconfig_flags the_host w = (Ok tt, w')
       /\ trace w'
          = trace w
            ++ [EvMkdtemp d;
                pull_event d (lit "product"); pull_event d (lit "system");
                pull_event d (lit "system_ext");
                pull_event d (lit "vendor");
                EvCleanup d]
       /\ pulled (trace w')
          = pulled (trace w)
            ++ [lit "/product/etc/aconfig_flags.textproto";
                lit "/system/etc/aconfig_flags.textproto";
                lit "/system_ext/etc/aconfig_flags.textproto";
                lit "/vendor/etc/aconfig_flags.textproto"].
Proof.
  intros w d.
  assert (H1 : mkdtemp the_host (trace w) = Ok d) by reflexivity.
  exact (conj H1
    (successful_load_pulls_each_partition_once the_host w _ full_docs H1
       (full_device_serves _))).
Defined.

Lemma last_with_key_Some k flags r :
  last_with_key k flags = Some r -> full_name r = k /\ r ∈ flags.
Proof.
  induction flags as [|flag flags IH]; simpl; [discriminate|].
  destruct (last_with_key k flags) as [r'|].
  - intros H. injection H as ->. destruct (IH eq_refl) as [H1 H2].
    split; [exact H1 | right; exact H2].
  - case_bool_decide as Hk; [|discriminate].
    intros Hr. injection Hr as <-. split; [exact Hk | left].
Qed.

Lemma store_flags_keyed flags d :
  keyed_by_full_name d -> keyed_by_full_name (store_flags flags d).
Proof.
  intros Hd k f. rewrite store_flags_lookup.
  destruct (last_with_key k flags) as [r|] eqn:Hr.
  - intros H. injection H as <-. apply (last_with_key_Some _ _ _ Hr).
  - apply Hd.
Qed.

Lemma load_partition_stores host d p w i r w' :
  _aconfig_flags (self w) = Some i ->
  load_partition host d p w = (r, w') ->
  exists flags, _aconfig_flags (self w') = Some (store_flags flags i).
Proof.
  intros Hi H. rewrite (load_partition_unfold _ _ _ _ i Hi) in H.
  simpl in H.
  destruct (adb_pull _ _ _ _) as [content|e].
  - destruct (text_format_Parse host content) as [flags|e];
      injection H as <- <-; simpl.
    + exists flags. reflexivity.
    + exists []. exact Hi.
  - injection H as <- <-. exists []. exact Hi.
Qed.

Lemma for_partitions_stores host d ps w i r w' :
  _aconfig_flags (self w) = Some i ->
  for_ ps (load_partition host d) w = (r, w') ->
  exists flags, _aconfig_flags (self w') = Some (store_flags flags i).
Proof.
  revert w i. induction ps as [|p ps IH]; intros w i Hi H.
  - injection H as <- <-. exists []. exact Hi.
  - simpl in H. rewrite bind_unfold in H.
    destruct (load_partition host d p w) as [[[]|e] w1] eqn:Hp.
    + destruct (load_partition_stores _ _ _ _ _ _ _ Hi Hp) as [l1 H1].
      destruct (IH _ _ H1 H) as [l2 H2].
      exists (l1 ++ l2). rewrite store_flags_app. exact H2.
    + injection H as <- <-.
      apply (load_partition_stores _ _ _ _ _ _ _ Hi Hp).
Qed.

Lemma load_stores host w r w' :
  _load_aconfig_flags host w = (r, w') ->
  exists flags, _aconfig_flags (self w') = Some (store_flags flags ∅).
Proof.
  rewrite load_unfold. destruct (mkdtemp host (trace w)) as [d|e].
  - destruct (for_ _ (load_partition host d) (load_entered d w))
      as [r2 w2] eqn:Hloop.
    intros H. injection H as <- <-.
    apply (for_partitions_stores _ _ _ _ ∅) in Hloop; [|reflexivity].
    exact Hloop.
  - intros H. injection H as <- <-. exists []. reflexivity.
Qed.

Lemma get_flags_stores host w r w' :
  _aconfig_flags (self w) = None ->
  _get_aconfig_flags host w = (r, w') ->
  exists flags, _aconfig_flags (self w') = Some (store_flags flags ∅).
Proof.
  intros Hnone. rewrite (get_flags_unloaded _ _ Hnone).
  destruct (_load_aconfig_flags host w) as [r1 w1] eqn:Hload.
  apply load_stores in Hload as [flags Hflags].
  intros H. assert (w' = w1) as ->.
  { destruct r1 as [[]|e]; [rewrite Hflags in H|]; congruence. }
  eauto.
Qed.

Lemma run_call_index host c w :
  _aconfig_flags (self (run_call host c w))
  = _aconfig_flags (self (_get_aconfig_flags host w).2).
Proof.
  destruct (run_call_world host c w) as [->|[cmd ->]]; reflexivity.
Qed.

(** X3.  In every session, whatever calls were made and however the load
    ended, each entry of the index is filed under
    ['%s/%s.%s' % (namespace, package, name)] of its own record: a lookup
    of (namespace, name) is only ever answered from a record whose
    namespace, package and name spell that key. *)
Theorem index_keyed_by_full_name host ad calls index :
  _aconfig_flags (self (run_calls host calls (new_session ad)))
  = Some index ->
  forall k f, index !! k = Some f -> full_name f = k.
Proof.
  destruct calls as [|c cs]; [discriminate|]. simpl.
  destruct (_get_aconfig_flags host (new_session ad)) as [r w1] eqn:Hget.
  destruct (get_flags_stores host (new_session ad) r w1 eq_refl Hget)
    as [flags Hflags].
  assert (H1 : _aconfig_flags (self (run_call host c (new_session ad)))
               = Some (store_flags flags ∅)).
  { rewrite run_call_index, Hget. exact Hflags. }
  destruct (run_calls_cached host cs _ _ H1) as [-> _].
  intros H. injection H as <-.
  apply store_flags_keyed. intros k f. rewrite lookup_empty. discriminate.
Qed.

Lemma index_keyed_by_full_name_witness :
  let calls := [CallGetValue (lit "sample") (lit "pkg.flag")] in
  let w := run_calls the_host calls
             (new_session (broken_device (Ok (blit "null")))) in
  let index : gmap str parsed_flag :=
    {[ lit "sample/pkg.flag" := sample_flag ENABLED READ_WRITE ]} in
  _aconfig_flags (self w) = Some index
  /\ forall k f, index !! k = Some f -> full_name f = k.
Proof.
  intros calls w index.
  assert (H : _aconfig_flags (self w) = Some index)
    by (vm_compute; reflexivity).
  exact (conj H
    (index_keyed_by_full_name the_host _ calls index H)).
Defined.

(** ** From the first call to the answer *)

Lemma concat_docs (docs : str -> list parsed_flag) :
  concat (map docs _ACONFIG_PARTITIONS)
  = docs (lit "product") ++ docs (lit "system")
      ++ docs (lit "system_ext") ++ docs (lit "vendor").
Proof.
  unfold _ACONFIG_PARTITIONS. cbn [map concat]. rewrite app_nil_r.
  reflexivity.
Qed.

Lemma flag_key_qualified f :
  flag_key (flag_namespace f) (qualified_name f) = full_name f.
Proof. reflexivity. Qed.

(** X4.  On a new object the first [get_value] for a flag that the
    partition documents define last as READ_ONLY, asked by its namespace
    and ['{package}.{name}'], loads the snapshot and returns the
    snapshot-derived value of that record; the device receives the four
    pulls and no [device_config] query. *)
Theorem first_call_answers_read_only_flag host ad d
    (docs : str -> list parsed_flag) f :
  mkdtemp host [] = Ok d ->
  (forall s, s ∈ _ACONFIG_PARTITIONS -> serves ad host s (docs s)) ->
  last_with_key (full_name f)
    (docs (lit "product") ++ docs (lit "system")
       ++ docs (lit "system_ext") ++ docs (lit "vendor")) = Some f ->
  permission f = READ_ONLY ->
  exists w',
    get_value host (flag_namespace f) (qualified_name f) (new_session ad)
    = (Ok (Some (snapshot_value (state f))), w')
    /\ shell_calls (trace w') = []
    /\ pulled (trace w') = map device_path _ACONFIG_PARTITIONS.
Proof.
  intros Hd Hs Hlast Hperm.
  destruct (load_serves_trace host d docs (new_session ad) Hd Hs)
    as (w' & Hload & Hidx & Htr).
  exists w'. rewrite get_value_unfold.
  rewrite (get_flags_unloaded host (new_session ad) eq_refl), Hload, Hidx.
  rewrite flag_key_qualified, store_flags_lookup, concat_docs.
  rewrite Hlast, Hperm. rewrite bool_decide_eq_true_2 by reflexivity.
  split; [reflexivity|]. rewrite Htr. simpl trace.
  change (EvMkdtemp d :: ?l) with ([EvMkdtemp d] ++ l).
  rewrite !shell_calls_app, shell_calls_pulls.
  rewrite !pulled_app, pulled_pulls. split; [reflexivity|].
  change (pulled [EvCleanup d]) with (@nil str).
  rewrite app_nil_r. reflexivity.
Qed.

Lemma first_call_answers_read_only_flag_witness :
  let f := sample_flag DISABLED READ_ONLY in
  let ad := full_device (Ok (blit "true")) in
  mkdtemp the_host [] = Ok (lit "/tmp/tmpq1w2e3")
  /\ last_with_key (full_name f)
       (full_docs (lit "product") ++ full_docs (lit "system")
          ++ full_docs (lit "system_ext") ++ full_docs (lit "vendor"))
     = Some f
  /\ permission f = READ_ONLY
  /\ exists w',
       get_value the_host (lit "sample") (lit "pkg.flag") (new_session ad)
       = (Ok (Some (lit "false")), w')
       /\ shell_calls (trace w') = []
       /\ pulled (trace w') = map device_path _ACONFIG_PARTITIONS.
Proof.
  intros f ad.
  assert (H1 : mkdtemp the_host [] = Ok (lit "/tmp/tmpq1w2e3"))
    by reflexivity.
  assert (H2 : last_with_key (full_name f)
                 (full_docs (lit "product") ++ full_docs (lit "system")
                    ++ full_docs (lit "system_ext")
                    ++ full_docs (lit "vendor")) = Some f)
    by (vm_compute; reflexivity).
  assert (H3 : permission f = READ_ONLY) by reflexivity.
  exact (conj H1 (conj H2 (conj H3
    (first_call_answers_read_only_flag the_host ad _ full_docs f
       H1 (full_device_serves _) H2 H3)))).
Defined.

(** X5.  [get_bool] on a flag whose snapshot entry is READ_ONLY never
    raises and never asks the device: it returns [True] when the entry is
    ENABLED and [False] when it is DISABLED. *)
Theorem get_bool_read_only host namespace name w flags w1 f :
  _get_aconfig_flags host w = (Ok flags, w1) ->
  flags !! flag_key namespace name = Some f ->
  permission f = READ_ONLY ->
  get_bool host namespace name w
  = (Ok (bool_decide (state f = ENABLED)), w1)
  /\ shell_calls (trace w1) = shell_calls (trace w).
Proof.
  intros Hflags Hf Hperm. split.
  - rewrite get_bool_unfold, get_value_unfold, Hflags, Hf, Hperm.
    rewrite bool_decide_eq_true_2 by reflexivity.
    destruct (state f); reflexivity.
  - eapply shell_calls_get_flags, Hflags.
Qed.

Lemma get_bool_read_only_witness :
  let flags := test_index DISABLED READ_ONLY in
  let f := test_flag DISABLED READ_ONLY in
  let w := preset_session (test_device (blit "true")) flags in
  _get_aconfig_flags the_host w = (Ok flags, w)
  /\ flags !! flag_key (lit "sample") (lit "flag") = Some f
  /\ permission f = READ_ONLY
  /\ get_bool the_host (lit "sample") (lit "flag") w = (Ok false, w)
  /\ shell_calls (trace w) = shell_calls (trace w).
Proof.
  intros flags f w.
  assert (H1 : _get_aconfig_flags the_host w = (Ok flags, w)) by reflexivity.
  assert (H2 : flags !! flag_key (lit "sample") (lit "flag") = Some f)
    by (vm_compute; reflexivity).
  assert (H3 : permission f = READ_ONLY) by reflexivity.
  exact (conj H1 (conj H2 (conj H3
    (get_bool_read_only the_host (lit "sample") (lit "flag")
       w flags w f H1 H2 H3)))).
Defined.

(** ** When the device does not answer *)

(** X6.  When the [device_config] query itself raises, [get_value] raises
    the same exception: the snapshot value of a READ_WRITE flag stands in
    for the answer "null" only, not for a failed query.  [get_bool]
    raises it too. *)
Theorem shell_failure_is_not_masked host namespace name w flags w1 e :
  _get_aconfig_flags host w = (Ok flags, w1) ->
  overridable flags namespace name ->
  adb_shell (_ad (self w1)) (trace w1) (device_config_get namespace name)
  = Raise e ->
  get_value host namespace name w
  = (Raise e, log (EvShell (device_config_get namespace name)) w1)
  /\ get_bool host namespace name w
     = (Raise e, log (EvShell (device_config_get namespace name)) w1).
Proof.
  intros Hflags Hover Hraise.
  assert (Hv : get_value host namespace name w
               = (Raise e, log (EvShell (device_config_get namespace name))
                             w1)).
  { rewrite get_value_unfold, Hflags.
    assert (Hlive : forall fb,
      live_or namespace name fb w1
      = (Raise e, log (EvShell (device_config_get namespace name)) w1)).
    { intros fb. unfold live_or. rewrite Hraise. reflexivity. }
    destruct (flags !! flag_key namespace name) as [f|] eqn:Hf;
      [|apply Hlive].
    rewrite (Hover f Hf). rewrite bool_decide_eq_false_2 by discriminate.
    apply Hlive. }
  split; [exact Hv|]. rewrite get_bool_unfold, Hv. reflexivity.
Qed.

Lemma shell_failure_is_not_masked_witness :
  let flags := test_index ENABLED READ_WRITE in
  let ad := table_device [] (Raise AdbError) in
  let w := preset_session ad flags in
  let cmd := device_config_get (lit "sample") (lit "flag") in
  _get_aconfig_flags the_host w = (Ok flags, w)
  /\ overridable flags (lit "sample") (lit "flag")
  /\ adb_shell (_ad (self w)) (trace w) cmd = Raise AdbError
  /\ get_value the_host (lit "sample") (lit "flag") w
     = (Raise AdbError, log (EvShell cmd) w)
  /\ get_bool the_host (lit "sample") (lit "flag") w
     = (Raise AdbError, log (EvShell cmd) w).
Proof.
  intros flags ad w cmd.
  assert (H1 : _get_aconfig_flags the_host w = (Ok flags, w)) by reflexivity.
  assert (H2 : overridable flags (lit "sample") (lit "flag")).
  { intros f. vm_compute. intros H. injection H as <-. reflexivity. }
  assert (H3 : adb_shell (_ad (self w)) (trace w) cmd = Raise AdbError)
    by reflexivity.
  exact (conj H1 (conj H2 (conj H3
    (shell_failure_is_not_masked the_host (lit "sample") (lit "flag")
       w flags w AdbError H1 H2 H3)))).
Defined.

(** X7.  When the answer of the device is not valid UTF-8, [get_value]
    raises [UnicodeDecodeError] from [decode('utf8')] after the query was
    sent, whatever the snapshot says about a READ_WRITE flag. *)
Theorem undecodable_answer_raises host namespace name w flags w1 raw :
  _get_aconfig_flags host w = (Ok flags, w1) ->
  overridable flags namespace name ->
  adb_shell (_ad (self w1)) (trace w1) (device_config_get namespace name)
  = Ok raw ->
  decode_utf8 raw = None ->
  get_value host namespace name w
  = (Raise UnicodeDecodeError,
     log (EvShell (device_config_get namespace name)) w1).
Proof.
  intros Hflags Hover Hraw Hdec.
  rewrite get_value_unfold, Hflags.
  assert (Hlive : forall fb,
    live_or namespace name fb w1
    = (Raise UnicodeDecodeError,
       log (EvShell (device_config_get namespace name)) w1)).
  { intros fb. unfold live_or. rewrite Hraw, Hdec. reflexivity. }
  destruct (flags !! flag_key namespace name) as [f|] eqn:Hf; [|apply Hlive].
  rewrite (Hover f Hf). rewrite bool_decide_eq_false_2 by discriminate.
  apply Hlive.
Qed.

Lemma undecodable_answer_raises_witness :
  let flags := test_index ENABLED READ_WRITE in
  let raw := [xc3; x28]%byte in
  let w := preset_session (test_device raw) flags in
  let cmd := device_config_get (lit "sample") (lit "flag") in
  _get_aconfig_flags the_host w = (Ok flags, w)
  /\ overridable flags (lit "sample") (lit "flag")
  /\ adb_shell (_ad (self w)) (trace w) cmd = Ok raw
  /\ decode_utf8 raw = None
  /\ get_value the_host (lit "sample") (lit "flag") w
     = (Raise UnicodeDecodeError, log (EvShell cmd) w).
Proof.
  intros flags raw w cmd.
  assert (H1 : _get_aconfig_flags the_host w = (Ok flags, w)) by reflexivity.
  assert (H2 : overridable flags (lit "sample") (lit "flag")).
  { intros f. vm_compute. intros H. injection H as <-. reflexivity. }
  assert (H3 : adb_shell (_ad (self w)) (trace w) cmd = Ok raw)
    by reflexivity.
  assert (H4 : decode_utf8 raw = None) by (vm_compute; reflexivity).
  exact (conj H1 (conj H2 (conj H3 (conj H4
    (undecodable_answer_raises the_host (lit "sample") (lit "flag")
       w flags w raw H1 H2 H3 H4))))).
Defined.

(** X8.  When the snapshot cannot be obtained (the load raises),
    [get_value] and [get_bool] raise that exception and do not fall back
    to the device: no [device_config] query is sent. *)
Theorem load_failure_is_not_masked host namespace name w e w1 :
  _get_aconfig_flags host w = (Raise e, w1) ->
  get_value host namespace name w = (Raise e, w1)
  /\ get_bool host namespace name w = (Raise e, w1)
  /\ shell_calls (trace w1) = shell_calls (trace w).
Proof.
  intros Hget.
  assert (Hv : get_value host namespace name w = (Raise e, w1))
    by (rewrite get_value_unfold, Hget; reflexivity).
  split; [exact Hv|]. split.
  - rewrite get_bool_unfold, Hv. reflexivity.
  - eapply shell_calls_get_flags, Hget.
Qed.

Lemma load_failure_is_not_masked_witness :
  let w := new_session (broken_device (Ok (blit "true"))) in
  let w1 := (_get_aconfig_flags the_host w).2 in
  _get_aconfig_flags the_host w = (Raise AdbError, w1)
  /\ get_value the_host (lit "sample") (lit "pkg.flag") w
     = (Raise AdbError, w1)
  /\ get_bool the_host (lit "sample") (lit "pkg.flag") w
     = (Raise AdbError, w1)
  /\ shell_calls (trace w1) = shell_calls (trace w).
Proof.
  intros w w1.
  assert (H1 : _get_aconfig_flags the_host w = (Raise AdbError, w1))
    by (vm_compute; reflexivity).
  exact (conj H1
    (load_failure_is_not_masked the_host (lit "sample") (lit "pkg.flag")
       w AdbError w1 H1)).
Defined.

(** ** What a sequence of calls does to the outside *)

Lemma get_flags_world host w :
  shell_calls (trace (_get_aconfig_flags host w).2) = shell_calls (trace w)
  /\ tmp_dirs (_get_aconfig_flags host w).2 = tmp_dirs w
  /\ _ad (self (_get_aconfig_flags host w).2) = _ad (self w).
Proof.
  destruct (_get_aconfig_flags host w) as [r w1] eqn:Hget. simpl.
  split; [exact (shell_calls_get_flags _ _ _ _ Hget)|].
  apply get_flags_frame in Hget as (Had & _ & Htd & _). auto.
Qed.

Lemma shell_calls_log_shell cmd w :
  shell_calls (trace (log (EvShell cmd) w))
  = shell_calls (trace w) ++ [EvShell cmd].
Proof. simpl. rewrite shell_calls_app. reflexivity. Qed.

Lemma run_call_frame host c w :
  (length (shell_calls (trace (run_call host c w)))
   <= S (length (shell_calls (trace w))))%nat
  /\ tmp_dirs (run_call host c w) = tmp_dirs w
  /\ _ad (self (run_call host c w)) = _ad (self w).
Proof.
  destruct (get_flags_world host w) as (Hsh & Htd & Had).
  destruct (run_call_world host c w) as [->|[cmd ->]].
  - rewrite Hsh, Htd, Had. auto.
  - rewrite shell_calls_log_shell, length_app, Hsh. simpl.
    rewrite Htd, Had. split; [lia | auto].
Qed.

(** X9.  A call never repeats its [device_config] query: [get_value]
    leaves the shell calls as they were or adds the one query
    [device_config get <namespace> <name>], and after any sequence of
    calls the device has received at most one query per call. *)
Theorem at_most_one_query_per_call host :
  (forall namespace name w,
     shell_calls (trace (get_value host namespace name w).2)
     = shell_calls (trace w)
     \/ shell_calls (trace (get_value host namespace name w).2)
        = shell_calls (trace w)
          ++ [EvShell (lit "device_config get " ++ namespace
                         ++ lit " " ++ name)])
  /\ (forall calls w,
        (length (shell_calls (trace (run_calls host calls w)))
         <= length (shell_calls (trace w)) + length calls)%nat).
Proof.
  split.
  - intros namespace name w.
    destruct (get_flags_world host w) as (Hsh & _).
    destruct (get_value_world host namespace name w) as [->| ->].
    + left. exact Hsh.
    + right. rewrite shell_calls_log_shell, Hsh. reflexivity.
  - intros calls. induction calls as [|c cs IH]; intros w; simpl.
    + lia.
    + specialize (IH (run_call host c w)).
      destruct (run_call_frame host c w) as (Hc & _). lia.
Qed.

(** X10.  No call of the public interface leaves a temporary directory
    behind or rebinds the device: after any sequence of [get_value] and
    [get_bool] calls, whether they returned or raised, the live temporary
    directories and [self._ad] are those from before. *)
Theorem calls_leave_no_temporary_directory host calls w :
  tmp_dirs (run_calls host calls w) = tmp_dirs w
  /\ _ad (self (run_calls host calls w)) = _ad (self w).
Proof.
  revert w. induction calls as [|c cs IH]; intros w; simpl; [auto|].
  destruct (IH (run_call host c w)) as [-> ->].
  destruct (run_call_frame host c w) as (_ & Htd & Had). auto.
Qed.

(** X11.  Asking twice for a READ_ONLY flag gives the same answer, and
    the second call has no effect at all: it neither loads nor queries,
    and leaves the session as the first call left it. *)
Theorem read_only_answer_is_stable host namespace name w flags w1 f :
  _get_aconfig_flags host w = (Ok flags, w1) ->
  flags !! flag_key namespace name = Some f ->
  permission f = READ_ONLY ->
  get_value host namespace name w
  = (Ok (Some (snapshot_value (state f))), w1)
  /\ get_value host namespace name w1
     = (Ok (Some (snapshot_value (state f))), w1).
Proof.
  intros Hflags Hf Hperm.
  assert (Hcached : _get_aconfig_flags host w1 = (Ok flags, w1)).
  { apply get_flags_cached.
    apply get_flags_frame in Hflags as (_ & _ & _ & H & _). auto. }
  split; rewrite get_value_unfold; [rewrite Hflags | rewrite Hcached];
    rewrite Hf, Hperm, bool_decide_eq_true_2 by reflexivity; reflexivity.
Qed.

Lemma read_only_answer_is_stable_witness :
  let w := new_session (full_device (Ok (blit "true"))) in
  let w1 := (_get_aconfig_flags the_host w).2 in
  let flags :=
    store_flags [sample_flag ENABLED READ_WRITE;
                 sample_flag DISABLED READ_ONLY] ∅ in
  let f := sample_flag DISABLED READ_ONLY in
  _get_aconfig_flags the_host w = (Ok flags, w1)
  /\ flags !! flag_key (lit "sample") (lit "pkg.flag") = Some f
  /\ permission f = READ_ONLY
  /\ get_value the_host (lit "sample") (lit "pkg.flag") w
     = (Ok (Some (lit "false")), w1)
  /\ get_value the_host (lit "sample") (lit "pkg.flag") w1
     = (Ok (Some (lit "false")), w1).
Proof.
  intros w w1 flags f.
  assert (H1 : _get_aconfig_flags the_host w = (Ok flags, w1))
    by (vm_compute; reflexivity).
  assert (H2 : flags !! flag_key (lit "sample") (lit "pkg.flag") = Some f)
    by (vm_compute; reflexivity).
  assert (H3 : permission f = READ_ONLY) by reflexivity.
  exact (conj H1 (conj H2 (conj H3
    (read_only_answer_is_stable the_host (lit "sample") (lit "pkg.flag")
       w flags w1 f H1 H2 H3)))).
Defined.

(** ** Trimming *)

Lemma lstrip_head s c : head (lstrip s) = Some c -> is_space c = false.
Proof.
  induction s as [|a s IH]; simpl; [discriminate|].
  destruct (is_space a) eqn:Ha; [exact IH|].
  simpl. intros H. injection H as <-. exact Ha.
Qed.

Lemma lstrip_suffix s : exists p, s = p ++ lstrip s.
Proof.
  induction s as [|a s [p Hp]]; simpl.
  - exists []. reflexivity.
  - destruct (is_space a).
    + exists (a :: p). simpl. f_equal. exact Hp.
    + exists []. reflexivity.
Qed.

Lemma last_rev (l : str) : last (rev l) = head l.
Proof. destruct l as [|a l]; simpl; [reflexivity | apply last_snoc]. Qed.

Lemma rstrip_last s c : last (rstrip s) = Some c -> is_space c = false.
Proof. unfold rstrip. rewrite last_rev. apply lstrip_head. Qed.

Lemma rstrip_prefix s : exists q, s = rstrip s ++ q.
Proof.
  unfold rstrip. destruct (lstrip_suffix (rev s)) as [p Hp].
  exists (rev p). rewrite <- rev_app_distr, <- Hp, rev_involutive.
  reflexivity.
Qed.

Lemma rstrip_head s c : head (rstrip s) = Some c -> head s = Some c.
Proof.
  destruct (rstrip_prefix s) as [q Hq]. intros H. rewrite Hq.
  destruct (rstrip s); [discriminate | exact H].
Qed.

Lemma strip_trimmed text : trimmed (strip text).
Proof.
  split; intros c H.
  - apply rstrip_head in H. apply (lstrip_head _ _ H).
  - apply (rstrip_last _ _ H).
Qed.

Lemma snapshot_value_trimmed s : trimmed (snapshot_value s).
Proof.
  split; intros c; destruct s; simpl; intros H; injection H as <-;
    reflexivity.
Qed.

(** X12.  Every string [get_value] returns is free of leading and
    trailing whitespace, whatever the device printed around its answer:
    the result is a snapshot-derived word or went through [strip()]. *)
Theorem get_value_result_is_trimmed host namespace name w v w' :
  get_value host namespace name w = (Ok (Some v), w') ->
  (forall c, head v = Some c -> is_space c = false)
  /\ (forall c, last v = Some c -> is_space c = false).
Proof.
  fold (trimmed v). rewrite get_value_unfold.
  destruct (_get_aconfig_flags host w) as [[flags|e] w1]; [|discriminate].
  assert (Hlive : forall fb,
    (forall x, fb = Some x -> trimmed x) ->
    live_or namespace name fb w1 = (Ok (Some v), w') -> trimmed v).
  { intros fb Hfb. unfold live_or.
    destruct (adb_shell _ _ _) as [raw|e]; [|discriminate].
    destruct (decode_utf8 raw) as [text|]; [|discriminate].
    case_bool_decide as Hnull; intros Hr; injection Hr as Hr _.
    - rewrite <- Hr. apply strip_trimmed.
    - apply Hfb, Hr. }
  destruct (flags !! flag_key namespace name) as [f|].
  - destruct (bool_decide (permission f = READ_ONLY)).
    + intros H. injection H as <- _. apply snapshot_value_trimmed.
    + apply Hlive. intros x H. injection H as <-.
      apply snapshot_value_trimmed.
  - apply Hlive. discriminate.
Qed.

Lemma get_value_result_is_trimmed_witness :
  let raw := [x20; x09; x6f; x6e; x20; x0a]%byte in
  let w := preset_session (test_device raw) ∅ in
  let cmd := device_config_get (lit "sample") (lit "flag") in
  get_value the_host (lit "sample") (lit "flag") w
  = (Ok (Some (lit "on")), log (EvShell cmd) w)
  /\ (forall c, head (lit "on") = Some c -> is_space c = false)
  /\ (forall c, last (lit "on") = Some c -> is_space c = false).
Proof.
  intros raw w cmd.
  assert (H : get_value the_host (lit "sample") (lit "flag") w
              = (Ok (Some (lit "on")), log (EvShell cmd) w))
    by (vm_compute; reflexivity).
  exact (conj H
    (get_value_result_is_trimmed the_host (lit "sample") (lit "flag")
       w _ _ H)).
Defined.

(** ** The pulled files *)

Lemma startswith_app p x : startswith p (p ++ x) = true.
Proof.
  unfold startswith. apply bool_decide_eq_true_2.
  rewrite take_app_length. reflexivity.
Qed.

Lemma host_path_inside d p :
  startswith (lit "/") (p ++ lit "_" ++ _ACONFIG_TEXTPROTO_FILE) = false ->
  inside d (host_path d p) = true.
Proof.
  intros Hp. unfold inside, host_path, os_path_join. cbn [fold_left].
  rewrite Hp.
  change (startswith (lit "/") []) with false. cbv iota.
  destruct (bool_decide (d = []) || endswith (lit "/") d).
  - rewrite app_nil_r. apply startswith_app.
  - rewrite app_nil_r.
    rewrite (app_assoc d (lit "/")). apply startswith_app.
Qed.

Lemma partition_host_path_inside d p :
  p ∈ _ACONFIG_PARTITIONS -> inside d (host_path d p) = true.
Proof.
  intros Hp. apply host_path_inside. unfold _ACONFIG_PARTITIONS in Hp.
  repeat (apply elem_of_cons in Hp as [->|Hp]); try reflexivity.
  inversion Hp.
Qed.

(** X13.  Whatever directory name the system hands out, the file of each
    partition is written inside that directory, and none of the pulled
    files outlives the load: after [_load_aconfig_flags], returned or
    raised, no pulled document is left on the host. *)
Theorem pulled_files_do_not_outlive_load host w r w' d p :
  _load_aconfig_flags host w = (r, w') ->
  mkdtemp host (trace w) = Ok d ->
  p ∈ _ACONFIG_PARTITIONS ->
  inside d (host_path d p) = true
  /\ files w' !! host_path d p = None.
Proof.
  intros Hload Hd Hp.
  pose proof (partition_host_path_inside d p Hp) as Hin.
  split; [exact Hin|].
  rewrite load_unfold, Hd in Hload.
  destruct (for_ _ (load_partition host d) (load_entered d w)) as [r2 w2].
  injection Hload as _ <-. apply cleanup_files, Hin.
Qed.

Lemma pulled_files_do_not_outlive_load_witness :
  let d := lit "/tmp/tmpq1w2e3" in
  let w := new_session (full_device (Ok (blit "null"))) in
  let w' := (_load_aconfig_flags the_host w).2 in
  let p := lit "vendor" in
  _load_aconfig_flags the_host w = (Ok tt, w')
  /\ mkdtemp the_host (trace w) = Ok d
  /\ p ∈ _ACONFIG_PARTITIONS
  /\ inside d (host_path d p) = true
  /\ files w' !! host_path d p = None.
Proof.
  intros d w w' p.
  assert (H1 : _load_aconfig_flags the_host w = (Ok tt, w'))
    by (vm_compute; reflexivity).
  assert (H2 : mkdtemp the_host (trace w) = Ok d) by reflexivity.
  assert (H3 : p ∈ _ACONFIG_PARTITIONS).
  { unfold _ACONFIG_PARTITIONS, p. do 3 right. left. }
  exact (conj H1 (conj H2 (conj H3
    (pulled_files_do_not_outlive_load the_host w _ w' d p H1 H2 H3)))).
Defined.

(** ** Keys *)

(** X14.  The key of the index depends only on the namespace and on the
    dotted concatenation of package and name: two records of one
    namespace whose ['{package}.{name}'] read the same occupy one entry,
    wherever the boundary between package and name falls, and after both
    are stored only the later one is found. *)
Theorem same_qualified_name_shares_entry (f g : parsed_flag)
    (d : gmap str parsed_flag) :
  flag_namespace f = flag_namespace g ->
  qualified_name f = qualified_name g ->
  full_name f = full_name g
  /\ store_flags [f; g] d !! full_name f = Some g.
Proof.
  intros Hns Hq.
  assert (H : full_name f = full_name g).
  { rewrite <- !flag_key_qualified, Hns, Hq. reflexivity. }
  split; [exact H|].
  simpl. rewrite H. apply lookup_insert_eq.
Qed.

Lemma same_qualified_name_shares_entry_witness :
  let f := {| flag_namespace := lit "ns"; flag_package := lit "a.b";
              flag_name := lit "c"; state := ENABLED;
              permission := READ_ONLY |} in
  let g := {| flag_namespace := lit "ns"; flag_package := lit "a";
              flag_name := lit "b.c"; state := DISABLED;
              permission := READ_WRITE |} in
  flag_namespace f = flag_namespace g
  /\ qualified_name f = qualified_name g
  /\ f ≠ g
  /\ full_name f = full_name g
  /\ store_flags [f; g] ∅ !! full_name f = Some g.
Proof.
  intros f g.
  assert (H1 : flag_namespace f = flag_namespace g) by reflexivity.
  assert (H2 : qualified_name f = qualified_name g) by reflexivity.
  assert (H3 : f ≠ g) by discriminate.
  exact (conj H1 (conj H2 (conj H3
    (same_qualified_name_shares_entry f g ∅ H1 H2)))).
Defined.

(** * Properties of the local runner *)

Lemma rbind_unfold {A B} (c : Runner.R A) (k : A -> Runner.R B) p :
  (c ≫= k) p =
  match c p with
  | (Runner.Done a, p') => k a p'
  | (Runner.Throw e, p') => (Runner.Throw e, p')
  end.
Proof. reflexivity. Qed.

Lemma runs_app es1 es2 :
  Runner.runs (es1 ++ es2) = Runner.runs es1 ++ Runner.runs es2.
Proof. apply omap_app. Qed.

Lemma calls_app es1 es2 :
  Runner.calls (es1 ++ es2) = Runner.calls es1 ++ Runner.calls es2.
Proof. apply omap_app. Qed.

Lemma outputs_app es1 es2 :
  Runner.outputs (es1 ++ es2) = Runner.outputs es1 ++ Runner.outputs es2.
Proof. apply omap_app. Qed.

(** ** Running the tests *)

Lemma test_command_eq py config tb b :
  (let cmd :=
     match Runner.truthy py with Some x => [x] | None => [] end in
   let cmd := cmd ++ [b; lit "-c"; config] in
   match Runner.truthy tb with
   | Some t => cmd ++ [lit "-tb"; t]
   | None => cmd
   end)
  = Runner.test_command py config tb b.
Proof.
  unfold Runner.test_command. cbv zeta.
  destruct (Runner.truthy tb); rewrite <- ?app_assoc, ?app_nil_r;
    reflexivity.
Qed.

Lemma run_mobly_test_ok sys py config tb lp env b p :
  (forall h cmd e, exists rc, Runner.subprocess_run sys h cmd e
                              = Runner.Done rc) ->
  exists p' env',
    Runner.run_mobly_test sys py config tb lp env b p = (Runner.Done env', p')
    /\ env' = match Runner.truthy lp with
              | Some l =>
                <[lit "MOBLY_LOGPATH"
                  := os_path_join l [Runner.basename b]]> env
              | None => env
              end
    /\ Runner.runs (Runner.effects p')
       = Runner.runs (Runner.effects p)
         ++ [(Runner.test_command py config tb b, env')]
    /\ Runner._tempdirs p' = Runner._tempdirs p
    /\ Runner._tempfiles p' = Runner._tempfiles p.
Proof.
  intros Hrun. unfold Runner.run_mobly_test. cbv zeta.
  pose proof (test_command_eq py config tb b) as Hcmd. cbv zeta in Hcmd.
  rewrite Hcmd. clear Hcmd.
  set (cmd := Runner.test_command py config tb b).
  set (env' := match Runner.truthy lp with
               | Some l => _
               | None => env
               end).
  rewrite rbind_unfold.
  unfold Runner._padded_print, Runner.print at 1. cbv beta iota.
  rewrite rbind_unfold. unfold Runner.print_command at 1. cbv beta iota.
  rewrite rbind_unfold. unfold Runner.run at 1. cbv beta.
  match goal with |- context [Runner.subprocess_run sys ?h ?c ?e] =>
    destruct (Hrun h c e) as [rc ->] end.
  cbv iota. eexists _, env'. split; [reflexivity|]. split; [reflexivity|].
  cbn [Runner.effects Runner.record Runner._tempdirs Runner._tempfiles].
  rewrite !runs_app. cbn [Runner.runs omap list_omap app].
  rewrite !app_nil_r. auto.
Qed.

(** The environment the loop carries agrees with [os.environ] up to the
    variable the loop sets. *)
Lemma run_mobly_tests_loop_ok sys py config tb lp bins env p :
  (forall h cmd e, exists rc, Runner.subprocess_run sys h cmd e
                              = Runner.Done rc) ->
  match Runner.truthy lp with
  | Some _ =>
    forall v, <[lit "MOBLY_LOGPATH" := v]> env
              = <[lit "MOBLY_LOGPATH" := v]> (Runner.environ sys)
  | None => env = Runner.environ sys
  end ->
  exists p',
    Runner.run_mobly_tests_loop sys py config tb lp env bins p
    = (Runner.Done tt, p')
    /\ Runner.runs (Runner.effects p')
       = Runner.runs (Runner.effects p)
         ++ map (fun b => (Runner.test_command py config tb b,
                           Runner.test_env sys lp b)) bins
    /\ Runner._tempdirs p' = Runner._tempdirs p
    /\ Runner._tempfiles p' = Runner._tempfiles p.
Proof.
  intros Hrun. revert env p.
  induction bins as [|b bins IH]; intros env p Henv.
  - exists p. simpl. rewrite app_nil_r. auto.
  - simpl. rewrite rbind_unfold.
    destruct (run_mobly_test_ok sys py config tb lp env b p Hrun)
      as (p1 & env1 & -> & Henv1 & Hruns1 & Htd1 & Htf1).
    destruct (IH env1 p1) as (p' & Hloop & Hruns & Htd & Htf).
    + rewrite Henv1. destruct (Runner.truthy lp); [|exact Henv].
      intros v. rewrite insert_insert_eq. apply Henv.
    + exists p'. split; [exact Hloop|].
      rewrite Hruns, Hruns1, Htd, Htd1, Htf, Htf1, <- app_assoc.
      split; [|auto]. f_equal. cbn [app]. f_equal. f_equal.
      rewrite Henv1. unfold Runner.test_env.
      destruct (Runner.truthy lp); [apply Henv | exact Henv].
Qed.

(** X15.  [_run_mobly_tests] starts every test binary once, in the order
    given, and a test that ends with a non-zero return code does not stop
    the ones after it: as long as each process can be started, the
    function returns normally whatever the return codes.  Each command is
    [[python] bin -c config [-tb test_bed]]; with a log path each test
    runs with [MOBLY_LOGPATH] set to the log path joined with the base
    name of its binary in the otherwise unchanged [os.environ], and
    without one in [os.environ] itself. *)
Theorem every_test_runs_once_in_order sys py bins config tb lp p :
  (forall h cmd e, exists rc, Runner.subprocess_run sys h cmd e
                              = Runner.Done rc) ->
  exists p',
    Runner._run_mobly_tests sys py bins config tb lp p = (Runner.Done tt, p')
    /\ Runner.runs (Runner.effects p')
       = Runner.runs (Runner.effects p)
         ++ map (fun b => (Runner.test_command py config tb b,
                           Runner.test_env sys lp b)) bins.
Proof.
  intros Hrun. unfold Runner._run_mobly_tests.
  destruct (run_mobly_tests_loop_ok sys py config tb lp bins
              (Runner.environ sys) p Hrun) as (p' & H1 & H2 & _).
  - destruct (Runner.truthy lp); reflexivity.
  - exists p'. auto.
Qed.

Lemma every_test_runs_once_in_order_witness :
  let sys := Runner.plain_system 1 [] in
  let bins := [lit "/out/test_a"; lit "/out/sub/test_b"] in
  (forall h cmd e, exists rc, Runner.subprocess_run sys h cmd e
                              = Runner.Done rc)
  /\ exists p',
       Runner._run_mobly_tests sys None bins (lit "cfg.yaml")
         (Some (lit "bed")) (Some (lit "/logs")) Runner.fresh
       = (Runner.Done tt, p')
       /\ Runner.runs (Runner.effects p')
          = [([lit "/out/test_a"; lit "-c"; lit "cfg.yaml"; lit "-tb";
               lit "bed"],
              <[lit "MOBLY_LOGPATH" := lit "/logs/test_a"]>
                (Runner.environ sys));
             ([lit "/out/sub/test_b"; lit "-c"; lit "cfg.yaml"; lit "-tb";
               lit "bed"],
              <[lit "MOBLY_LOGPATH" := lit "/logs/test_b"]>
                (Runner.environ sys))].
Proof.
  intros sys bins.
  assert (H : forall h cmd e, exists rc,
             Runner.subprocess_run sys h cmd e = Runner.Done rc)
    by (intros h cmd e; exists 1%Z; reflexivity).
  exact (conj H
    (every_test_runs_once_in_order sys None bins (lit "cfg.yaml")
       (Some (lit "bed")) (Some (lit "/logs")) Runner.fresh H)).
Defined.

(** ** Installing the APKs *)

Lemma install_step sys apk serial p :
  exists r p',
    (Runner.print (lit "Installing " ++ apk ++ lit " on device " ++ serial
                     ++ lit ".");;
     Runner.check_call sys (Runner.install_command serial apk)) p = (r, p')
    /\ Runner.calls (Runner.effects p')
       = Runner.calls (Runner.effects p)
         ++ [Runner.install_command serial apk]
    /\ Runner.outputs (Runner.effects p') = Runner.outputs (Runner.effects p)
    /\ ((forall h c, Runner.subprocess_call sys h c = Runner.Done 0%Z) ->
        r = Runner.Done tt).
Proof.
  rewrite rbind_unfold. unfold Runner.print at 1. cbv beta iota.
  unfold Runner.check_call.
  destruct (Runner.subprocess_call sys _ _) as [rc|e] eqn:Hcall;
    [destruct (Z.eqb rc 0) eqn:Hrc|];
    eexists _, _; (split; [reflexivity|]);
    cbn [Runner.effects Runner.record];
    rewrite !calls_app, !outputs_app;
    cbn [Runner.calls Runner.outputs omap list_omap app];
    rewrite !app_nil_r; (split; [reflexivity|]); (split; [reflexivity|]);
    intros Hall; rewrite Hall in Hcall.
  - reflexivity.
  - injection Hcall as <-. discriminate.
  - discriminate.
Qed.

Lemma install_on_serials sys apk serials p r p' :
  Runner.each serials (fun serial =>
    Runner.print (lit "Installing " ++ apk ++ lit " on device " ++ serial
                    ++ lit ".");;
    Runner.check_call sys (Runner.install_command serial apk)) p = (r, p') ->
  exists k,
    installs sys (map (fun serial => Runner.install_command serial apk)
                      serials) k p r p'.
Proof.
  revert p. induction serials as [|serial serials IH]; intros p H.
  - injection H as <- <-. exists []. unfold installs.
    rewrite app_nil_r. auto.
  - cbn [Runner.each] in H. rewrite rbind_unfold in H.
    destruct (install_step sys apk serial p)
      as (r1 & p1 & H1 & Hc1 & Ho1 & Hall1).
    rewrite H1 in H. destruct r1 as [[]|e].
    + apply IH in H as (k & Hk & Hc & Ho & Hdone & Hall).
      exists (Runner.install_command serial apk :: k). unfold installs.
      rewrite Hc, Hc1, Ho, Ho1, <- app_assoc. cbn [map].
      split; [apply prefix_cons, Hk|]. split; [reflexivity|].
      split; [reflexivity|]. split; [|exact Hall].
      intros Hr. rewrite (Hdone Hr). reflexivity.
    + injection H as <- <-. exists [Runner.install_command serial apk].
      unfold installs. cbn [map].
      split; [apply prefix_cons, prefix_nil|]. split; [exact Hc1|].
      split; [exact Ho1|]. split; [discriminate|exact Hall1].
Qed.

Lemma install_all sys apks serials p r p' :
  Runner.each apks (fun apk =>
    Runner.each serials (fun serial =>
      Runner.print (lit "Installing " ++ apk ++ lit " on device " ++ serial
                      ++ lit ".");;
      Runner.check_call sys (Runner.install_command serial apk))) p
  = (r, p') ->
  exists k, installs sys (Runner.install_plan apks serials) k p r p'.
Proof.
  revert p. induction apks as [|apk apks IH]; intros p H.
  - injection H as <- <-. exists []. unfold installs.
    rewrite app_nil_r. auto.
  - cbn [Runner.each] in H. rewrite rbind_unfold in H.
    destruct (Runner.each serials _ p) as [r1 p1] eqn:H1.
    apply install_on_serials in H1 as (k1 & Hk1 & Hc1 & Ho1 & Hd1 & Hall1).
    unfold Runner.install_plan. cbn [flat_map].
    fold (Runner.install_plan apks serials).
    destruct r1 as [[]|e].
    + apply IH in H as (k & Hk & Hc & Ho & Hdone & Hall).
      rewrite (Hd1 eq_refl) in *.
      exists (map (fun serial => Runner.install_command serial apk) serials
              ++ k).
      unfold installs. rewrite Hc, Hc1, Ho, Ho1, <- app_assoc.
      split; [apply prefix_app, Hk|]. split; [reflexivity|].
      split; [reflexivity|]. split; [|exact Hall].
      intros Hr. rewrite (Hdone Hr). reflexivity.
    + injection H as <- <-. exists k1. unfold installs.
      split; [apply prefix_app_r, Hk1|]. split; [exact Hc1|].
      split; [exact Ho1|]. split; [discriminate|exact Hall1].
Qed.




Lemma install_plan_nil apks : Runner.install_plan apks [] = [].
Proof. induction apks as [|apk apks IH]; [reflexivity | exact IH]. Qed.

(** X17.  Without serials ([None] or an empty list), [_install_apks]
    asks [adb devices] once and installs every APK on every line of the
    trimmed output, APK by APK; when no device is attached the output is
    blank and the function returns without installing anything and
    without an error. *)
Theorem install_on_attached_devices sys apks serials p raw text :
  Runner.truthy_list serials = None ->
  (forall h,
     Runner.subprocess_output sys h
       (lit "adb devices | tail -n +2 | cut -f 1")
     = Runner.Done (0%Z, raw)) ->
  decode_utf8 raw = Some text ->
  (forall h c, Runner.subprocess_call sys h c = Runner.Done 0%Z) ->
  exists p',
    Runner._install_apks sys apks serials p = (Runner.Done tt, p')
    /\ Runner.outputs (Runner.effects p')
       = Runner.outputs (Runner.effects p)
         ++ [lit "adb devices | tail -n +2 | cut -f 1"]
    /\ Runner.calls (Runner.effects p')
       = Runner.calls (Runner.effects p)
         ++ Runner.install_plan apks (Runner.splitlines (strip text))
    /\ (strip text = [] ->
        Runner.calls (Runner.effects p')
        = Runner.calls (Runner.effects p)).
Proof.
  intros Hnone Hout Hdec Hall.
  unfold Runner._install_apks. rewrite rbind_unfold.
  unfold Runner._padded_print, Runner.print at 1. cbv beta iota.
  rewrite rbind_unfold, Hnone, rbind_unfold.
  unfold Runner.check_output at 1. rewrite Hout.
  change (Z.eqb 0 0) with true. cbv iota.
  rewrite rbind_unfold. unfold Runner.decode_utf_8 at 1. rewrite Hdec.
  unfold mret at 1 2. unfold Runner.R_ret at 1 2. cbv beta iota.
  match goal with |- context [Runner.each apks ?body ?q] =>
    destruct (Runner.each apks body q) as [r p'] eqn:Hloop end.
  apply install_all in Hloop as (k & _ & Hc & Ho & Hdone & Hr).
  specialize (Hr Hall). subst r. rewrite (Hdone eq_refl) in Hc.
  cbn [Runner.effects Runner.record] in Hc, Ho.
  rewrite !calls_app in Hc. rewrite !outputs_app in Ho.
  cbn [Runner.calls Runner.outputs omap list_omap app] in Hc, Ho.
  rewrite !app_nil_r in Hc. rewrite app_nil_r in Ho.
  exists p'. split; [reflexivity|]. split; [exact Ho|]. split; [exact Hc|].
  intros Hblank. rewrite Hc, Hblank.
  change (Runner.splitlines []) with (@nil str).
  rewrite install_plan_nil, app_nil_r. reflexivity.
Qed.

Lemma install_on_attached_devices_witness :
  let raw := [x41; x31; x0a; x42; x32; x0a]%byte in
  let sys := Runner.plain_system 0 raw in
  let apks := [lit "a.apk"; lit "b.apk"] in
  Runner.truthy_list (Some []) = None
  /\ decode_utf8 raw = Some (lit "A1" ++ Runner.nl ++ lit "B2" ++ Runner.nl)
  /\ exists p',
       Runner._install_apks sys apks (Some []) Runner.fresh
       = (Runner.Done tt, p')
       /\ Runner.outputs (Runner.effects p')
          = Runner.outputs (Runner.effects Runner.fresh)
            ++ [lit "adb devices | tail -n +2 | cut -f 1"]
       /\ Runner.calls (Runner.effects p')
          = Runner.calls (Runner.effects Runner.fresh)
            ++ [Runner.install_command (lit "A1") (lit "a.apk");
                Runner.install_command (lit "B2") (lit "a.apk");
                Runner.install_command (lit "A1") (lit "b.apk");
                Runner.install_command (lit "B2") (lit "b.apk")]
       /\ (strip (lit "A1" ++ Runner.nl ++ lit "B2" ++ Runner.nl) = [] ->
           Runner.calls (Runner.effects p')
           = Runner.calls (Runner.effects Runner.fresh)).
Proof.
  intros raw sys apks.
  assert (H1 : Runner.truthy_list (Some []) = None) by reflexivity.
  assert (H2 : forall h,
             Runner.subprocess_output sys h
               (lit "adb devices | tail -n +2 | cut -f 1")
             = Runner.Done (0%Z, raw)) by reflexivity.
  assert (H3 : decode_utf8 raw
               = Some (lit "A1" ++ Runner.nl ++ lit "B2" ++ Runner.nl))
    by (vm_compute; reflexivity).
  assert (H4 : forall h c, Runner.subprocess_call sys h c = Runner.Done 0%Z)
    by reflexivity.
  exact (conj H1 (conj H3
    (install_on_attached_devices sys apks (Some []) Runner.fresh raw _
       H1 H2 H3 H4))).
Defined.

(** ** Cleaning up *)






(** ** Comma-separated options *)

Lemma split_comma_aux_nonempty cur s : Runner.split_comma_aux cur s ≠ [].
Proof.
  revert cur. induction s as [|c s IH]; intros cur; simpl; [discriminate|].
  destruct (c =? 44); [discriminate | apply IH].
Qed.

Lemma join_split_comma_aux cur s :
  Runner.join_comma (Runner.split_comma_aux cur s) = rev cur ++ s.
Proof.
  revert cur. induction s as [|c s IH]; intros cur; simpl.
  - rewrite app_nil_r. reflexivity.
  - destruct (c =? 44) eqn:Hc.
    + apply N.eqb_eq in Hc as ->.
      pose proof (split_comma_aux_nonempty [] s) as Hne.
      specialize (IH []). simpl in IH.
      destruct (Runner.split_comma_aux [] s) as [|x rest]; [done|].
      rewrite <- IH. reflexivity.
    + rewrite IH. simpl. rewrite <- app_assoc. reflexivity.
Qed.

Lemma not_elem_of_rev (c : N) (l : str) : c ∉ l -> c ∉ rev l.
Proof.
  intros H Hin. apply H. apply list_elem_of_In, in_rev, list_elem_of_In.
  exact Hin.
Qed.

Lemma split_comma_aux_no_comma cur s :
  44 ∉ cur -> Forall (fun x => 44 ∉ x) (Runner.split_comma_aux cur s).
Proof.
  revert cur. induction s as [|c s IH]; intros cur Hcur; simpl.
  - constructor; [apply not_elem_of_rev, Hcur | constructor].
  - destruct (c =? 44) eqn:Hc.
    + constructor; [apply not_elem_of_rev, Hcur|].
      apply IH. apply not_elem_of_nil.
    + apply IH. apply N.eqb_neq in Hc. rewrite not_elem_of_cons.
      split; [congruence | exact Hcur].
Qed.

(** X19.  The serials option is split at its commas without losing
    anything: [main] passes [None] when the option is missing or empty,
    and otherwise a non-empty list of comma-free pieces which, joined
    with commas, spell the option again; empty pieces, as from a doubled
    or trailing comma, are kept as serials. *)
Theorem serials_are_split_faithfully :
  (forall o, Runner.parse_serials o = None <-> o = None \/ o = Some [])
  /\ (forall s l,
        Runner.parse_serials (Some s) = Some l ->
        l ≠ []
        /\ Runner.join_comma l = s
        /\ Forall (fun piece => 44 ∉ piece) l).
Proof.
  split.
  - intros [[|c s]|]; unfold Runner.parse_serials; simpl; split;
      intros H; auto; try discriminate; destruct H; discriminate.
  - intros s l. unfold Runner.parse_serials.
    destruct s as [|c s]; [discriminate|]. cbn [Runner.truthy].
    intros H. injection H as <-. unfold Runner.split_comma.
    split; [apply split_comma_aux_nonempty|]. split.
    + apply join_split_comma_aux.
    + apply split_comma_aux_no_comma, not_elem_of_nil.
Qed.

Lemma serials_are_split_faithfully_witness :
  let s := lit "DEV1,,DEV2," in
  let l := [lit "DEV1"; []; lit "DEV2"; []] in
  Runner.parse_serials (Some s) = Some l
  /\ l ≠ []
  /\ Runner.join_comma l = s
  /\ Forall (fun piece => 44 ∉ piece) l.
Proof.
  intros s l.
  assert (H : Runner.parse_serials (Some s) = Some l)
    by (vm_compute; reflexivity).
  exact (conj H (proj2 serials_are_split_faithfully s l H)).
Defined.
